(** * The agent turn loop of the browser LLM agent (class [LLMAgent])

    A shallow embedding of the control core of the agent script: the
    pause/cancel gate ([togglePause], [resumeProcessing], [cancelProcessing],
    [checkPauseState]), the turn loop ([sendMessage], [agentLoop],
    [callLLM]) and the tool dispatcher ([handleToolCalls], [executeTool],
    [googleSearch], [aiPipeWorkflow], [executeJavaScript]).

    The script is asynchronous JavaScript on one thread.  It is embedded as
    state-passing functions in a monad with three outcomes: a value, a
    thrown exception, or "still suspended" when the number of suspensions
    one is prepared to watch is used up.  Whatever lies outside the script
    (the JavaScript host, the remote endpoints, the user at the page) is one
    record of oracles, [World]. *)

From Stdlib Require Import String Ascii List ZArith Bool Arith Lia DecimalString.
Import ListNotations.
Open Scope string_scope.

Set Implicit Arguments.
Set Warnings "-register-all".

(** ** JavaScript values *)

(** The values the script handles dynamically: parsed tool arguments,
    response bodies, tool results, and whatever evaluated code returns or
    throws.  Numbers are restricted to integers; objects are association
    lists in insertion order.  [JBigInt] stands for the values evaluated
    code can return that have no JSON text. *)
Inductive value : Type :=
| undefined
| null
| JBool (b : bool)
| JNum (n : Z)
| JBigInt (n : Z)
| JStr (s : string)
| JArr (elements : list value)
| JObj (fields : list (string * value)).

Fixpoint assoc (k : string) (fields : list (string * value)) : option value :=
  match fields with
  | [] => None
  | (k', v) :: rest => if String.eqb k k' then Some v else assoc k rest
  end.

(** [has_field v k]: the object [v] owns a property [k]. *)
Definition has_field (v : value) (k : string) : bool :=
  match v with
  | JObj fields => match assoc k fields with Some _ => true | None => false end
  | _ => false
  end.

(** Property read [v.k].  [None] stands for the TypeError raised when the
    base is [null] or [undefined]; a missing property reads [undefined]. *)
Definition get (v : value) (k : string) : option value :=
  match v with
  | undefined | null => None
  | JObj fields =>
      Some match assoc k fields with Some x => x | None => undefined end
  | JArr elements =>
      Some (if String.eqb k "length"
            then JNum (Z.of_nat (length elements)) else undefined)
  | _ => Some undefined
  end.

(** ToBoolean. *)
Definition truthy (v : value) : bool :=
  match v with
  | undefined | null => false
  | JBool b => b
  | JNum n | JBigInt n => negb (Z.eqb n 0)
  | JStr s => negb (String.eqb s "")
  | JArr _ | JObj _ => true
  end.

(** A destructuring default, [{ k = d }]: the default applies exactly when
    the property reads [undefined]. *)
Definition with_default (d v : value) : value :=
  match v with undefined => d | _ => v end.

(** Exceptions raised by the script and the host are Error objects; only
    their [name] and [message] are ever read. *)
Record Exn : Type := mkExn { exn_name : string; exn_message : string }.

Definition Error (msg : string) : Exn := mkExn "Error" msg.
Definition TypeError (msg : string) : Exn := mkExn "TypeError" msg.
Definition AbortError : Exn := mkExn "AbortError" "The user aborted a request.".

(** The same Error object seen as a value (what evaluated code may throw). *)
Definition error_value (e : Exn) : value :=
  JObj [("name", JStr (exn_name e)); ("message", JStr (exn_message e))].

Definition cannot_read (base : value) (k : string) : Exn :=
  TypeError ("Cannot read properties of "
             ++ (match base with null => "null" | _ => "undefined" end)
             ++ " (reading '" ++ k ++ "')").

Definition string_of_Z (z : Z) : string := NilZero.string_of_int (Z.to_int z).

(** [String.prototype.trim], for the ASCII white space characters. *)
Definition is_space (c : ascii) : bool :=
  let n := nat_of_ascii c in
  Nat.eqb n 32 || (Nat.leb 9 n && Nat.leb n 13).

Fixpoint trim_start (s : string) : string :=
  match s with
  | String c rest => if is_space c then trim_start rest else s
  | EmptyString => EmptyString
  end.

Fixpoint rev_string (acc s : string) : string :=
  match s with
  | String c rest => rev_string (String c acc) rest
  | EmptyString => acc
  end.

Definition trim (s : string) : string :=
  rev_string "" (trim_start (rev_string "" (trim_start s))).

Definition nonempty (s : string) : bool :=
  match s with EmptyString => false | _ => true end.

(** ** Conversation data *)

Module ToolCall.
Record func : Type := mkFunc { name : string; arguments : string }.
Record t : Type := mk { id : string; function : func }.
End ToolCall.

Inductive Role : Type := system | user | assistant | tool.

Module Message.
Record t : Type := mk {
  role : Role;
  content : string;
  tool_calls : option (list ToolCall.t);
  tool_call_id : option string
}.
End Message.

Module ToolResult.
Record t : Type := mk { tool_call_id : string; result : value }.
End ToolResult.

(** [choice.message] of a completion response. *)
Module Reply.
Record t : Type := mk {
  content : option string;
  tool_calls : option (list ToolCall.t)
}.
End Reply.

(** The tool catalogue advertised to the model ([TOOLS]), by tool name; the
    parameter schemas play no part in the control flow. *)
Definition TOOLS : list string :=
  ["google_search"; "ai_pipe_workflow"; "execute_javascript"].

Definition SYSTEM_PROMPT : string :=
"You are an advanced LLM agent with multi-tool reasoning capabilities. Your goal is to help users by:

1. **Understanding the user's request** completely
2. **Planning the approach** - decide which tools to use and in what order
3. **Executing tool calls** as needed to gather information or perform tasks
4. **Synthesizing results** into a comprehensive response

## Core Agent Loop Logic:
- Take user input
- Analyze what tools are needed
- Execute tool calls to gather data/perform tasks
- Continue with additional tools if needed
- Provide final synthesized answer

## Available Tools:
1. **google_search**: Search the web for current information
2. **ai_pipe_workflow**: Execute AI workflows for complex processing
3. **execute_javascript**: Run JavaScript code for calculations/demonstrations

## Guidelines:
- Use tools strategically to provide comprehensive answers
- Execute code to demonstrate concepts when helpful
- Search for current information when needed
- Combine multiple tools for complex tasks
- Always explain your reasoning process
- Be thorough but concise in responses

## Tool Usage Examples:
- For current events: Use google_search
- For calculations/demos: Use execute_javascript  
- For analysis tasks: Use ai_pipe_workflow
- For complex research: Combine multiple tools

Remember: You can use multiple tools in sequence. Always think through what information you need and use the appropriate tools to gather it.".

(** The body of a chat-completion request as [callLLM] builds it. *)
Record Request : Type := mkRequest {
  req_endpoint : string;
  req_headers : list (string * string);
  req_model : string;
  req_messages : list Message.t;
  req_tools : list string;
  req_tool_choice : string;
  req_max_tokens : Z
}.

(** ** The agent, the page and the outside world *)

(** What the UI methods have put on the page.  The thinking indicator, the
    pause dialog and the state of the buttons are cosmetic and not tracked. *)
Inductive Render : Type :=
| addedMessage (type content : string)
| addedToolCalls (toolCalls : list ToolCall.t)
| updatedToolCallResult (toolCallId : string) (result : value).

(** The fields of the [LLMAgent] instance the loop reads and writes,
    together with the page ([display], oldest first), the number of
    suspensions the turn has gone through ([clock]) and the completion
    requests it has issued ([sent], oldest first).  [abortController] is
    [None] for JavaScript's null and otherwise holds [signal.aborted]. *)
Record State : Type := mkState {
  isProcessing : bool;
  isPaused : bool;
  abortController : option bool;
  currentProvider : string;
  apiKey : string;
  model : string;
  display : list Render;
  clock : nat;
  sent : list Request
}.

Definition set_isProcessing (b : bool) (s : State) : State :=
  mkState b (isPaused s) (abortController s) (currentProvider s) (apiKey s)
          (model s) (display s) (clock s) (sent s).
Definition set_isPaused (b : bool) (s : State) : State :=
  mkState (isProcessing s) b (abortController s) (currentProvider s) (apiKey s)
          (model s) (display s) (clock s) (sent s).
Definition set_abortController (c : option bool) (s : State) : State :=
  mkState (isProcessing s) (isPaused s) c (currentProvider s) (apiKey s)
          (model s) (display s) (clock s) (sent s).
Definition set_display (d : list Render) (s : State) : State :=
  mkState (isProcessing s) (isPaused s) (abortController s) (currentProvider s)
          (apiKey s) (model s) d (clock s) (sent s).
Definition set_clock (n : nat) (s : State) : State :=
  mkState (isProcessing s) (isPaused s) (abortController s) (currentProvider s)
          (apiKey s) (model s) (display s) n (sent s).
Definition set_sent (l : list Request) (s : State) : State :=
  mkState (isProcessing s) (isPaused s) (abortController s) (currentProvider s)
          (apiKey s) (model s) (display s) (clock s) l.

(** [this.abortController?.signal.aborted] *)
Definition aborted (s : State) : bool :=
  match abortController s with Some b => b | None => false end.

(** What a [fetch] followed by [response.json()] comes to: the request is
    rejected (network failure), or a response arrives whose body either
    fails to parse into the expected shape or is read successfully. *)
Record Response (B : Type) : Type := mkResponse {
  ok : bool;
  status : Z;
  statusText : string;
  body : Exn + B
}.

Inductive Fetched (B : Type) : Type :=
| Rejected (e : Exn)
| Arrived (response : Response B).
Arguments Rejected {B} e.

(** A call of the three-method mock console handed to evaluated code. *)
Inductive ConsoleMethod : Type := console_log | console_error | console_warn.

(** How evaluated code ends: it returns a value or throws one. *)
Inductive Completion : Type := Returned (v : value) | Thrown (v : value).

Record Run : Type := mkRun {
  console_calls : list (ConsoleMethod * list value);
  completion : Completion
}.

(** What the user clicks while the loop is suspended. *)
Inductive UIEvent : Type := PauseButton | DialogResume | DialogCancel.

(** Everything outside the script.  The [nat] argument of the remote
    endpoints and of [ui] is the value of [clock] at the suspension in
    question. *)
Record World : Type := mkWorld {
  (** the host: [JSON.parse] and [JSON.stringify] with the exception they
      throw on a text that is not JSON and on a value that has no JSON
      text, and the conversion of a value to a string *)
  JSON_parse : string -> Exn + value;
  JSON_stringify : value -> Exn + string;
  ToString : value -> string;
  (** [new Function('console', ...code...)(mockConsole)]: compiling the
      wrapper around [code] and calling it; a compile error is a thrown
      SyntaxError. *)
  run_Function : value -> Run;
  (** the remote endpoints *)
  chat_completions : nat -> Request -> Fetched Reply.t;
  customsearch : nat -> value -> value -> Fetched value;
  workflow_completions : nat -> string -> value -> value -> value -> Fetched value;
  (** the user *)
  ui : nat -> list UIEvent
}.

(** ** The monad of the script *)

(** How far a computation has got: it finished with a value, it threw, or it
    is still suspended (at a poll of the pause gate, or at the head of the
    loop) when the budget of observed suspensions ran out. *)
Inductive Outcome (A : Type) : Type :=
| Ok (a : A) (s : State)
| Throw (e : Exn) (s : State)
| Pending (s : State).
Arguments Throw {A} e s.
Arguments Pending {A} s.

Definition M (A : Type) : Type := State -> Outcome A.

Definition ret {A} (a : A) : M A := fun s => Ok a s.

Definition bind {A B} (c : M A) (k : A -> M B) : M B := fun s =>
  match c s with
  | Ok a s' => k a s'
  | Throw e s' => Throw e s'
  | Pending s' => Pending s'
  end.

Definition throw {A} (e : Exn) : M A := fun s => Throw e s.

(** [try { c } catch (error) { handler error }] *)
Definition try_catch {A} (c : M A) (handler : Exn -> M A) : M A := fun s =>
  match c s with
  | Throw e s' => handler e s'
  | r => r
  end.

Definition modify (f : State -> State) : M unit := fun s => Ok tt (f s).

Declare Scope js_scope.
Delimit Scope js_scope with js.
Notation "x <- c ;; k" := (bind c (fun x => k))
  (at level 100, c at next level, right associativity) : js_scope.
Notation "c ;; k" := (bind c (fun _ => k))
  (at level 100, right associativity) : js_scope.
Open Scope js_scope.

(** The state a computation stops in, whatever the outcome. *)
Definition final {A} (r : Outcome A) : State :=
  match r with Ok _ s | Throw _ s | Pending s => s end.

(** [v.k] where a null or undefined base throws. *)
Definition read (v : value) (k : string) : M value :=
  match get v k with
  | Some x => ret x
  | None => throw (cannot_read v k)
  end.

(** ** UI methods and the pause/cancel gate *)

Definition render (r : Render) (s : State) : State :=
  set_display (display s ++ [r]) s.

(** [addMessage(type, content)] *)
Definition addMessage (type content : string) (s : State) : State :=
  render (addedMessage type content) s.

(** [togglePause()], bound to the pause button. *)
Definition togglePause (s : State) : State :=
  if negb (isProcessing s) then s
  else if isPaused s
  then addMessage "agent" "🔄 **Resuming processing...**" (set_isPaused false s)
  else set_isPaused true s.

(** [resumeProcessing()], the Resume button of the pause dialog. *)
Definition resumeProcessing (s : State) : State :=
  addMessage "agent" "▶️ **Processing resumed...**" (set_isPaused false s).

(** [cancelProcessing()], the Cancel button of the pause dialog: it aborts
    the controller when there is one and leaves every other field alone. *)
Definition cancelProcessing (s : State) : State :=
  addMessage "agent" "❌ **Processing cancelled by user.**"
    (match abortController s with
     | Some _ => set_abortController (Some true) s
     | None => s
     end).

Definition handle (ev : UIEvent) : State -> State :=
  match ev with
  | PauseButton => togglePause
  | DialogResume => resumeProcessing
  | DialogCancel => cancelProcessing
  end.

Definition handle_all (evs : list UIEvent) (s : State) : State :=
  fold_left (fun s ev => handle ev s) evs s.

Section Script.

Variable w : World.

(** The state in which the loop resumes after a suspension begun in [s]:
    the clicks that arrived meanwhile have run their handlers. *)
Definition resumed (s : State) : State :=
  set_clock (S (clock s)) (handle_all (ui w (clock s)) s).

(** One suspension of the loop ([await] of a timer or of a remote call). *)
Definition suspend : M unit := fun s => Ok tt (resumed s).

(** [while (this.isPaused && this.isProcessing) await sleep(100)], watched
    for at most [polls] rounds. *)
Fixpoint waitWhilePaused (polls : nat) : M unit := fun s =>
  if isPaused s && isProcessing s then
    match polls with
    | O => Pending s
    | S p => (suspend ;; waitWhilePaused p) s
    end
  else Ok tt s.

(** [checkPauseState()] *)
Definition checkPauseState (polls : nat) : M unit :=
  (fun s => if isPaused s then waitWhilePaused polls s else Ok tt s) ;;
  fun s =>
    if aborted s then Throw (Error "Request was cancelled") s else Ok tt s.

(** ** Remote calls *)

(** [await fetch(url, { signal })] together with the reading of the body:
    a signal that is already aborted rejects the call on the spot; otherwise
    the loop is suspended once, and an abort that arrives meanwhile rejects
    the call with an AbortError whatever the remote end did. *)
Definition fetch {B} (remote : nat -> Fetched B) : M (Response B) := fun s =>
  if aborted s then Throw AbortError s
  else
    let answer := remote (clock s) in
    (suspend ;;
     fun s' =>
       if aborted s' then Throw AbortError s'
       else match answer with
            | Rejected e => Throw e s'
            | Arrived response => Ok response s'
            end) s.

(** [await response.json()] *)
Definition json {B} (response : Response B) : M B :=
  match body response with
  | inl e => throw e
  | inr b => ret b
  end.

(** [getEndpoint()] *)
Definition getEndpoint (s : State) : string :=
  if String.eqb (currentProvider s) "aipipe"
  then "https://aipipe.org/openai/v1/chat/completions"
  else "https://api.openai.com/v1/chat/completions".

(** [getHeaders()] *)
Definition getHeaders : M (list (string * string)) := fun s =>
  if nonempty (apiKey s)
  then Ok [("Content-Type", "application/json");
           ("Authorization", "Bearer " ++ apiKey s)] s
  else if String.eqb (currentProvider s) "openai"
  then Throw (Error "API key required for OpenAI") s
  else Ok [("Content-Type", "application/json")] s.

(** The request body [callLLM] builds for [messages]. *)
Definition request_for (headers : list (string * string))
    (messages : list Message.t) (s : State) : Request :=
  mkRequest (getEndpoint s) headers (model s) messages TOOLS "auto" 2000.

(** Sending a completion request, noted in [sent] as it leaves. *)
Definition post (request : Request) : M (Response Reply.t) := fun s =>
  fetch (fun t => chat_completions w t request)
        (if aborted s then s else set_sent (sent s ++ [request]) s).

(** [callLLM(messages)]: the reply's text and tool calls, ["" ] and [[]]
    standing in for missing ones. *)
Definition callLLM (messages : list Message.t)
  : M (string * list ToolCall.t) :=
  headers <- getHeaders ;;
  response <- (fun s => post (request_for headers messages s) s) ;;
  if negb (ok response)
  then throw (Error ("LLM API error: " ++ string_of_Z (status response)
                     ++ " " ++ statusText response))
  else
    message <- json response ;;
    ret (match Reply.content message with Some c => c | None => "" end,
         match Reply.tool_calls message with Some l => l | None => [] end).

(** ** The tools *)

(** Destructuring a parameter object, [{ k, ... }]: a null or undefined
    argument throws. *)
Definition destructure (params : value) (k : string) : M value :=
  match get params k with
  | Some x => ret x
  | None =>
      throw (TypeError ("Cannot destructure property '" ++ k
                        ++ "' of 'object' as it is "
                        ++ (match params with null => "null" | _ => "undefined" end)
                        ++ "."))
  end.

Fixpoint mapM {A B} (f : A -> M B) (l : list A) : M (list B) :=
  match l with
  | [] => ret []
  | a :: rest => b <- f a ;; bs <- mapM f rest ;; ret (b :: bs)
  end.

(** [item => ({ title: item.title, link: item.link, snippet: item.snippet })] *)
Definition snippet_of (item : value) : M value :=
  title <- read item "title" ;;
  link <- read item "link" ;;
  snippet <- read item "snippet" ;;
  ret (JObj [("title", title); ("link", link); ("snippet", snippet)]).

(** [googleSearch({ query, num_results = 5 })].  The request URL is
    determined by [query] and [num_results], which is what the search
    endpoint is given here. *)
Definition googleSearch (params : value) : M value :=
  query <- destructure params "query" ;;
  n <- destructure params "num_results" ;;
  let num_results := with_default (JNum 5) n in
  try_catch
    (response <- fetch (fun t => customsearch w t query num_results) ;;
     data <- json response ;;
     items <- read data "items" ;;
     if truthy items then
       match items with
       | JArr elements =>
           results <- mapM snippet_of elements ;;
           ret (JObj [("query", query); ("results", JArr results)])
       | _ => throw (TypeError "data.items.map is not a function")
       end
     else
       ret (JObj [("query", query); ("results", JArr []);
                  ("message", JStr "No results found")]))
    (fun error => throw (Error ("Search failed: " ++ exn_message error))).

(** The system prompt table of [aiPipeWorkflow], indexed by property key. *)
Definition workflow_prompt (key : string) : value :=
  if String.eqb key "analysis" then
    JStr "You are an expert analyst. Analyze the provided data thoroughly and provide insights."
  else if String.eqb key "summarization" then
    JStr "You are an expert summarizer. Create a comprehensive summary of the provided content."
  else if String.eqb key "generation" then
    JStr "You are a creative content generator. Generate high-quality content based on the input."
  else if String.eqb key "classification" then
    JStr "You are an expert classifier. Classify and categorize the provided data."
  else undefined.

(** [aiPipeWorkflow({ workflow_type, input_data, instructions = "" })].  The
    request is determined by the API key, the system prompt and the two
    texts; the body of the response is read down to
    [data.choices[0].message.content]. *)
Definition aiPipeWorkflow (params : value) : M value :=
  workflow_type <- destructure params "workflow_type" ;;
  input_data <- destructure params "input_data" ;;
  i <- destructure params "instructions" ;;
  let instructions := with_default (JStr "") i in
  let systemPrompt := workflow_prompt (ToString w workflow_type) in
  response <- (fun s =>
    fetch (fun t => workflow_completions w t (apiKey s) systemPrompt
                                         instructions input_data) s) ;;
  if negb (ok response)
  then throw (Error ("AI Pipe workflow failed: " ++ string_of_Z (status response)))
  else
    text <- json response ;;
    ret (JObj [("workflow_type", workflow_type); ("result", text)]).

(** [args.join(' ')] *)
Fixpoint join (sep : string) (args : list value) : string :=
  let show v := match v with undefined | null => "" | _ => ToString w v end in
  match args with
  | [] => ""
  | [v] => show v
  | v :: rest => show v ++ sep ++ join sep rest
  end.

(** What the mock console pushes onto [logs] for one call. *)
Definition log_line (call : ConsoleMethod * list value) : string :=
  match call with
  | (console_log, args) => join " " args
  | (console_error, args) => "ERROR: " ++ join " " args
  | (console_warn, args) => "WARN: " ++ join " " args
  end.

(** [executeJavaScript({ code, return_value = true })].  Evaluated code is
    taken not to reach the agent itself. *)
Definition executeJavaScript (params : value) : M value :=
  code <- destructure params "code" ;;
  r <- destructure params "return_value" ;;
  let return_value := with_default (JBool true) r in
  let run := run_Function w code in
  let logs := map log_line (console_calls run) in
  match completion run with
  | Returned result =>
      ret (JObj [("code", code);
                 ("result", if truthy return_value then result else null);
                 ("console_output", JArr (map JStr logs));
                 ("success", JBool true)])
  | Thrown error =>
      message <- read error "message" ;;
      ret (JObj [("code", code); ("error", message); ("success", JBool false)])
  end.

(** [JSON.parse(text)] *)
Definition parse (text : string) : M value :=
  match JSON_parse w text with
  | inl e => throw e
  | inr v => ret v
  end.

(** [executeTool(toolCall)] *)
Definition executeTool (toolCall : ToolCall.t) : M value :=
  let name := ToolCall.name (ToolCall.function toolCall) in
  let args := ToolCall.arguments (ToolCall.function toolCall) in
  params <- parse args ;;
  if String.eqb name "google_search" then googleSearch params
  else if String.eqb name "ai_pipe_workflow" then aiPipeWorkflow params
  else if String.eqb name "execute_javascript" then executeJavaScript params
  else throw (Error ("Unknown tool: " ++ name)).

(** ** Tool dispatch *)

(** [addToolCallsUI(toolCalls)]: the card of every call is built from its
    parsed arguments before anything is put on the page. *)
Definition addToolCallsUI (toolCalls : list ToolCall.t) : M unit :=
  mapM (fun toolCall =>
          parse (ToolCall.arguments (ToolCall.function toolCall))) toolCalls ;;
  modify (render (addedToolCalls toolCalls)).

(** [JSON.stringify(v)] *)
Definition stringify (v : value) : M string :=
  match JSON_stringify w v with
  | inl e => throw e
  | inr text => ret text
  end.

(** [updateToolCallResult(toolCallId, result)]: the card of the call is
    filled with the JSON text of the result. *)
Definition updateToolCallResult (toolCallId : string) (result : value) : M unit :=
  stringify result ;;
  modify (render (updatedToolCallResult toolCallId result)).

(** The [catch] block in the loop of [handleToolCalls]: the error result
    is pushed and shown on the card of the call. *)
Definition catch_block (toolCallId : string) (error : Exn)
    (results : list ToolResult.t) : M (list ToolResult.t) :=
  let errorResult := JObj [("error", JStr (exn_message error))] in
  updateToolCallResult toolCallId errorResult ;;
  ret (results ++ [ToolResult.mk toolCallId errorResult])%list.

(** The [try]/[catch] in the loop of [handleToolCalls], for one call.  The
    [try] block pushes the result before it updates the card, so an
    exception raised by the update reaches the [catch] block with the
    result already in [results]. *)
Definition dispatch (toolCall : ToolCall.t) (results : list ToolResult.t)
  : M (list ToolResult.t) := fun s =>
  let id := ToolCall.id toolCall in
  match executeTool toolCall s with
  | Ok result s1 =>
      let results1 := (results ++ [ToolResult.mk id result])%list in
      match updateToolCallResult id result s1 with
      | Ok _ s2 => Ok results1 s2
      | Throw error s2 => catch_block id error results1 s2
      | Pending s2 => Pending s2
      end
  | Throw error s1 => catch_block id error results s1
  | Pending s1 => Pending s1
  end.

Fixpoint forEachToolCall (polls : nat) (toolCalls : list ToolCall.t)
                         (results : list ToolResult.t)
  : M (list ToolResult.t) :=
  match toolCalls with
  | [] => ret results
  | toolCall :: rest =>
      checkPauseState polls ;;
      results' <- dispatch toolCall results ;;
      forEachToolCall polls rest results'
  end.

(** [handleToolCalls(toolCalls)] *)
Definition handleToolCalls (polls : nat) (toolCalls : list ToolCall.t)
  : M (list ToolResult.t) :=
  addToolCallsUI toolCalls ;;
  forEachToolCall polls toolCalls [].

(** ** The turn loop *)

Definition assistant_message (output : string) (toolCalls : list ToolCall.t)
  : Message.t :=
  Message.mk assistant output (Some toolCalls) None.

(** The tool message pushed for a result. *)
Definition tool_message (r : ToolResult.t) : M Message.t :=
  content <- stringify (ToolResult.result r) ;;
  ret (Message.mk tool content None (Some (ToolResult.tool_call_id r))).

(** The [while (true)] of [agentLoop], watched for at most [rounds]
    iterations; it yields the conversation the turn ended with. *)
Fixpoint agentLoop_while (polls rounds : nat) (messages : list Message.t)
  : M (list Message.t) :=
  match rounds with
  | O => fun s => Pending s
  | S rounds' =>
      checkPauseState polls ;;
      reply <- callLLM messages ;;
      let '(output, toolCalls) := reply in
      checkPauseState polls ;;
      (if nonempty (trim output)
       then modify (addMessage "agent" output) else ret tt) ;;
      match toolCalls with
      | [] => ret messages
      | _ :: _ =>
          checkPauseState polls ;;
          toolResults <- handleToolCalls polls toolCalls ;;
          toolMessages <- mapM tool_message toolResults ;;
          agentLoop_while polls rounds'
            (messages ++ assistant_message output toolCalls :: toolMessages)%list
      end
  end.

(** [agentLoop(userInput)] *)
Definition agentLoop (polls rounds : nat) (userInput : string)
  : M (list Message.t) :=
  agentLoop_while polls rounds
    [Message.mk system SYSTEM_PROMPT None None;
     Message.mk user userInput None None].

(** The [finally] clause of [sendMessage]. *)
Definition finally (s : State) : State :=
  set_abortController None (set_isPaused false (set_isProcessing false s)).

(** The [catch] and [finally] clauses of [sendMessage], applied to the
    outcome of [agentLoop]. *)
Definition settle {A} (r : Outcome A) : Outcome unit :=
  match r with
  | Ok _ s => Ok tt (finally s)
  | Throw error s =>
      Ok tt (finally
        (if String.eqb (exn_name error) "AbortError"
         then addMessage "error" "Request was cancelled by user." s
         else addMessage "error" ("Error: " ++ exn_message error) s))
  | Pending s => Pending s
  end.

(** [sendMessage()], for the text [input] of the input box. *)
Definition sendMessage (polls rounds : nat) (input : string) : M unit := fun s =>
  let message := trim input in
  if negb (nonempty message) || isProcessing s then Ok tt s
  else
    settle
      (agentLoop polls rounds message
         (set_abortController (Some false)
            (set_isPaused false
               (set_isProcessing true (addMessage "user" message s))))).

End Script.

(** ** Stored configuration *)

(** The three fields [saveConfig] stores and [loadConfig] restores.  They
    are values here, since [loadConfig] assigns whatever the stored JSON
    holds. *)
Module Config.
Record t : Type := mk { provider : value; apiKey : value; model : value }.
End Config.

(** The configuration of an agent whose fields are texts. *)
Definition config_of (s : State) : Config.t :=
  Config.mk (JStr (currentProvider s)) (JStr (apiKey s)) (JStr (model s)).

(** [a || b] *)
Definition or_else (a b : value) : value := if truthy a then a else b.

Section Configuration.

Variable w : World.

(** [saveConfig()]: the text put under the key [llm-agent-config] of the
    local storage. *)
Definition saveConfig (c : Config.t) : Exn + string :=
  JSON_stringify w (JObj [("provider", Config.provider c);
                          ("apiKey", Config.apiKey c);
                          ("model", Config.model c)]).

(** [loadConfig()], for the item [stored] under that key ([None] when
    there is none): the fields afterwards.  Whatever is thrown on the way
    is caught and logged, and leaves the fields as they were; the updates
    of the page that follow the assignments are not tracked. *)
Definition loadConfig (stored : option string) (c : Config.t) : Config.t :=
  let text := match stored with
              | Some t => if nonempty t then t else "{}"
              | None => "{}"
              end in
  match JSON_parse w text with
  | inl _ => c
  | inr config =>
      match get config "provider", get config "apiKey", get config "model" with
      | Some p, Some k, Some m =>
          Config.mk (or_else p (JStr "aipipe")) (or_else k (JStr ""))
                    (or_else m (JStr "gpt-4o-mini"))
      | _, _, _ => c
      end
  end.

End Configuration.

(** ** Worlds and states used in the examples *)

(** A host whose [JSON.parse] knows the texts of [table] and rejects every
    other text, as the real one rejects a truncated object. *)
Definition parse_with (table : list (string * value)) (text : string) : Exn + value :=
  match find (fun entry => String.eqb text (fst entry)) table with
  | Some entry => inr (snd entry)
  | None => inl (mkExn "SyntaxError" "Unexpected end of JSON input")
  end.

Definition no_reply : Fetched Reply.t :=
  Rejected (TypeError "Failed to fetch").

Definition no_data : Fetched value :=
  Rejected (TypeError "Failed to fetch").

Definition replied (text : option string) (calls : option (list ToolCall.t))
  : Fetched Reply.t :=
  Arrived (mkResponse true 200 "OK" (inr (Reply.mk text calls))).

Definition quoted (text : string) : string :=
  let q := String (ascii_of_nat 34) EmptyString in q ++ text ++ q.

(** The host's ToString and [JSON.stringify], for values whose texts need
    no escapes beyond quotes, backslashes and line feeds. *)
Fixpoint to_string (v : value) : string :=
  match v with
  | undefined => "undefined"
  | null => "null"
  | JBool b => if b then "true" else "false"
  | JNum n | JBigInt n => string_of_Z n
  | JStr text => text
  | JArr elements =>
      String.concat ","
        ((fix each (l : list value) : list string :=
            match l with
            | [] => []
            | x :: rest =>
                match x with
                | undefined | null => ""
                | _ => to_string x
                end :: each rest
            end) elements)
  | JObj _ => "[object Object]"
  end.

Definition escape_char (c : ascii) : string :=
  if Ascii.eqb c (ascii_of_nat 34) then String "\" (String c EmptyString)
  else if Ascii.eqb c "\" then "\\"
  else if Ascii.eqb c (ascii_of_nat 10) then "\n"
  else String c EmptyString.

Fixpoint escape (text : string) : string :=
  match text with
  | EmptyString => EmptyString
  | String c rest => escape_char c ++ escape rest
  end.

Fixpoint json_text (v : value) : string :=
  match v with
  | undefined | null => "null"
  | JBool b => if b then "true" else "false"
  | JNum n | JBigInt n => string_of_Z n
  | JStr text => quoted (escape text)
  | JArr elements =>
      "[" ++ String.concat ","
               ((fix each (l : list value) : list string :=
                   match l with
                   | [] => []
                   | x :: rest => json_text x :: each rest
                   end) elements) ++ "]"
  | JObj fields =>
      "{" ++ String.concat ","
               ((fix each (l : list (string * value)) : list string :=
                   match l with
                   | [] => []
                   | (k, x) :: rest =>
                       match x with
                       | undefined => each rest
                       | _ => (quoted (escape k) ++ ":" ++ json_text x)
                              :: each rest
                       end
                   end) fields) ++ "}"
  end.

(** Whether a value has a JSON text: no BigInt occurs in it. *)
Fixpoint serializable (v : value) : bool :=
  match v with
  | JBigInt _ => false
  | JArr elements =>
      (fix each (l : list value) : bool :=
         match l with
         | [] => true
         | x :: rest => serializable x && each rest
         end) elements
  | JObj fields =>
      (fix each (l : list (string * value)) : bool :=
         match l with
         | [] => true
         | (_, x) :: rest => serializable x && each rest
         end) fields
  | _ => true
  end.

Definition json_stringify (v : value) : Exn + string :=
  if serializable v then inr (json_text v)
  else inl (TypeError "Do not know how to serialize a BigInt").

(** A world given by its parse table, its evaluator, its completion
    endpoint, its search endpoint and its user. *)
Definition world_of (table : list (string * value)) (run : value -> Run)
    (chat : nat -> Request -> Fetched Reply.t)
    (search : nat -> value -> value -> Fetched value)
    (clicks : nat -> list UIEvent) : World :=
  mkWorld (parse_with table) json_stringify to_string run chat search
          (fun _ _ _ _ _ => no_data) clicks.

Definition never_runs (code : value) : Run :=
  mkRun [] (Thrown (error_value (mkExn "SyntaxError" "Unexpected token"))).

(** The agent as its constructor leaves it, on an empty page. *)
Definition idle : State :=
  mkState false false None "aipipe" "" "gpt-4o-mini" [] 0 [].

(** The agent in the middle of a turn, as [sendMessage] sets it up. *)
Definition running : State :=
  mkState true false (Some false) "aipipe" "" "gpt-4o-mini" [] 0 [].

(** The model answers in plain text; the user presses the pause button
    while that request is in flight and the dialog's Cancel button during
    the first poll of the gate. *)
Definition pause_then_cancel : World :=
  world_of [] never_runs
    (fun _ _ => replied (Some "Hello!") None)
    (fun _ _ _ => no_data)
    (fun t => match t with
              | 0 => [PauseButton]
              | 1 => [DialogCancel]
              | _ => []
              end).

(** The model asks for a web search; the user pauses and cancels while the
    search request is in flight.  The arguments are the text
    [{"query":"rocq"}]. *)
Definition search_arguments : string :=
  "{" ++ quoted "query" ++ ":" ++ quoted "rocq" ++ "}".

Definition search_call : ToolCall.t :=
  ToolCall.mk "call_s" (ToolCall.mkFunc "google_search" search_arguments).

Definition cancel_during_search : World :=
  world_of [(search_arguments, JObj [("query", JStr "rocq")])] never_runs
    (fun _ _ => replied (Some "Searching.") (Some [search_call]))
    (fun _ _ _ => Arrived (mkResponse true 200 "OK"
                             (inr (JObj [("items", JArr [])]))))
    (fun t => match t with
              | 1 => [PauseButton; DialogCancel]
              | _ => []
              end).

(** A small evaluator standing in for the host's: it knows
    [return a+b] for decimal numerals, [throw 'oops'],
    [throw new Error('boom')] and [return 2n**64n]. *)
Fixpoint read_digits (acc : option Z) (text : string) : option Z * string :=
  match text with
  | String c rest =>
      let n := nat_of_ascii c in
      if Nat.leb 48 n && Nat.leb n 57
      then read_digits
             (Some (10 * (match acc with Some a => a | None => 0 end)
                    + Z.of_nat (n - 48))%Z) rest
      else (acc, text)
  | EmptyString => (acc, text)
  end.

Definition eval_sum (text : string) : option Z :=
  if String.prefix "return " text then
    match read_digits None (substring 7 (String.length text - 7) text) with
    | (Some a, String "+" rest) =>
        match read_digits None rest with
        | (Some b, EmptyString) => Some (a + b)%Z
        | _ => None
        end
    | _ => None
    end
  else None.

Definition evaluate (code : value) : Run :=
  match code with
  | JStr text =>
      if String.eqb text "throw 'oops'" then mkRun [] (Thrown (JStr "oops"))
      else if String.eqb text "throw new Error('boom')"
      then mkRun [] (Thrown (error_value (Error "boom")))
      else if String.eqb text "return 2n**64n"
      then mkRun [] (Returned (JBigInt 18446744073709551616))
      else match eval_sum text with
           | Some n => mkRun [] (Returned (JNum n))
           | None => never_runs code
           end
  | _ => never_runs code
  end.

Definition nobody (t : nat) : list UIEvent := [].

(** A world with the small evaluator and nothing else going on. *)
Definition calculator : World :=
  world_of [] evaluate (fun _ _ => no_reply) (fun _ _ _ => no_data) nobody.

(** The model answers in plain text and nobody touches the page. *)
Definition plain_answer : World :=
  world_of [] never_runs (fun _ _ => replied (Some "Hello!") None)
           (fun _ _ _ => no_data) nobody.


(** The search provider reports no hits with an empty [items] array. *)
Definition empty_items : World :=
  world_of [] never_runs (fun _ _ => no_reply)
    (fun _ _ _ => Arrived (mkResponse true 200 "OK"
                             (inr (JObj [("items", JArr [])]))))
    nobody.

(** The search provider reports no hits by leaving [items] out. *)
Definition no_hits : World :=
  world_of [] never_runs (fun _ _ => no_reply)
    (fun _ _ _ =>
       Arrived (mkResponse true 200 "OK"
                  (inr (JObj [("searchInformation",
                               JObj [("totalResults", JStr "0")])]))))
    nobody.


(** The completion endpoint is down. *)
Definition model_down : World :=
  world_of [] never_runs
    (fun _ _ => Arrived (mkResponse false 500 "Internal Server Error"
                           (inl (mkExn "SyntaxError" "Unexpected token <"))))
    (fun _ _ _ => no_data) nobody.

(** A tool call whose arguments were cut off in mid-object, as a reply
    that hits the token limit leaves them. *)
Definition truncated_call : ToolCall.t :=
  ToolCall.mk "call_1" (ToolCall.mkFunc "google_search" "{").

Definition truncated_arguments : World :=
  world_of [] never_runs
    (fun _ _ => replied (Some "Let me search for that.") (Some [truncated_call]))
    (fun _ _ _ => no_data) nobody.

(** The model asks for a power of two, and the code computes it as a
    BigInt.  The arguments are the text [{"code":"return 2n**64n"}]. *)
Definition power_arguments : string :=
  "{" ++ quoted "code" ++ ":" ++ quoted "return 2n**64n" ++ "}".

Definition power_call : ToolCall.t :=
  ToolCall.mk "call_p" (ToolCall.mkFunc "execute_javascript" power_arguments).

Definition big_power : World :=
  world_of [(power_arguments, JObj [("code", JStr "return 2n**64n")])] evaluate
    (fun _ _ => replied (Some "Computing.") (Some [power_call]))
    (fun _ _ _ => no_data) nobody.

(** The model first asks for two tools, one of them unknown, then answers. *)
Definition unknown_call : ToolCall.t :=
  ToolCall.mk "call_a" (ToolCall.mkFunc "get_weather" "{}").

(** The text [{"code":"return 1+1"}]. *)
Definition sum_arguments : string :=
  "{" ++ quoted "code" ++ ":" ++ quoted "return 1+1" ++ "}".

Definition sum_call : ToolCall.t :=
  ToolCall.mk "call_b" (ToolCall.mkFunc "execute_javascript" sum_arguments).

Definition two_calls : World :=
  world_of [("{}", JObj []);
            (sum_arguments, JObj [("code", JStr "return 1+1")])]
    evaluate
    (fun _ request =>
       match req_messages request with
       | [_; _] => replied (Some "Working on it.") (Some [unknown_call; sum_call])
       | _ => replied (Some "The sum is 2.") None
       end)
    (fun _ _ _ => no_data) nobody.

(** The model asks for an unknown tool in every reply; the host parses
    every text as an empty object and has a JSON text for every value. *)
Definition insistent_model : World :=
  mkWorld (fun _ => inr (JObj [])) (fun v => inr (json_text v)) to_string
          never_runs
          (fun _ _ => replied (Some "One more.") (Some [unknown_call]))
          (fun _ _ _ => no_data) (fun _ _ _ _ _ => no_data) nobody.


(** The agent paused in the middle of a turn. *)
Definition paused : State := set_isPaused true running.


(** A configuration and a host that knows its JSON text. *)
Definition my_settings : Config.t :=
  Config.mk (JStr "openai") (JStr "sk-test") (JStr "gpt-4o").

Definition my_settings_object : value :=
  JObj [("provider", JStr "openai"); ("apiKey", JStr "sk-test");
        ("model", JStr "gpt-4o")].

(** The JSON text of an object with the provider [openai], an empty key
    and the number 4 for a model. *)
Definition partial_settings_text : string :=
  "{" ++ quoted "provider" ++ ":" ++ quoted "openai" ++ ","
      ++ quoted "apiKey" ++ ":" ++ quoted "" ++ "," ++ quoted "model" ++ ":4}".

Definition settings_host : World :=
  world_of [(json_text my_settings_object, my_settings_object); ("{}", JObj []);
            (partial_settings_text,
             JObj [("provider", JStr "openai"); ("apiKey", JStr "");
                   ("model", JNum 4)])]
           never_runs (fun _ _ => no_reply) (fun _ _ _ => no_data) nobody.



(** The workflow endpoint answers with a text. *)
Definition summarizer : World :=
  mkWorld (parse_with []) json_stringify to_string never_runs
          (fun _ _ => no_reply) (fun _ _ _ => no_data)
          (fun _ _ _ _ _ => Arrived (mkResponse true 200 "OK" (inr (JStr "A summary."))))
          nobody.

(** The workflow endpoint refuses the request. *)
Definition workflow_down : World :=
  mkWorld (parse_with []) json_stringify to_string never_runs
          (fun _ _ => no_reply) (fun _ _ _ => no_data)
          (fun _ _ _ _ _ =>
             Arrived (mkResponse false 429 "Too Many Requests"
                        (inl (mkExn "SyntaxError" "Unexpected end of JSON input"))))
          nobody.



(** Whatever the code, running it throws [null]. *)
Definition throws_null : World :=
  world_of [] (fun _ => mkRun [] (Thrown null)) (fun _ _ => no_reply)
           (fun _ _ _ => no_data) nobody.

(** * Properties of a turn *)

(** Nobody clicks, ever. *)
Definition quiet (w : World) : Prop := forall t, ui w t = [].

(** The flags and the settings of the agent are the same in both states. *)
Definition same_control (s s' : State) : Prop :=
  isProcessing s' = isProcessing s
  /\ isPaused s' = isPaused s
  /\ abortController s' = abortController s
  /\ currentProvider s' = currentProvider s
  /\ apiKey s' = apiKey s
  /\ model s' = model s.




(** The names every object literal answers to without owning them: the
    properties of [Object.prototype]. *)
Definition inherited_keys : list string :=
  ["constructor"; "__proto__"; "hasOwnProperty"; "isPrototypeOf";
   "propertyIsEnumerable"; "toLocaleString"; "toString"; "valueOf";
   "__defineGetter__"; "__defineSetter__"; "__lookupGetter__";
   "__lookupSetter__"].

(** The result has a JSON text. *)
Definition has_text (w : World) (r : ToolResult.t) : Prop :=
  exists text, JSON_stringify w (ToolResult.result r) = inr text.

(** The arguments of the call parse. *)
Definition parsable (w : World) (toolCall : ToolCall.t) : Prop :=
  exists v, JSON_parse w (ToolCall.arguments (ToolCall.function toolCall)) = inr v.

(** [carries s r]: request [r] goes to the endpoint of the provider
    selected in [s], names the model of [s], offers the whole catalogue,
    and has an [Authorization] header exactly when [s] has a key. *)
Definition carries (s : State) (r : Request) : Prop :=
  req_endpoint r
  = (if String.eqb (currentProvider s) "aipipe"
     then "https://aipipe.org/openai/v1/chat/completions"
     else "https://api.openai.com/v1/chat/completions")
  /\ req_headers r
     = (if nonempty (apiKey s)
        then [("Content-Type", "application/json");
              ("Authorization", "Bearer " ++ apiKey s)]
        else [("Content-Type", "application/json")])
  /\ (nonempty (apiKey s) = true \/ currentProvider s <> "openai")
  /\ req_model r = model s
  /\ req_tools r = TOOLS
  /\ req_tool_choice r = "auto"
  /\ req_max_tokens r = 2000%Z.

(** From [s] to [s'] the settings are the same and every request sent
    carries them. *)
Definition sends_with_settings (s s' : State) : Prop :=
  currentProvider s' = currentProvider s
  /\ apiKey s' = apiKey s
  /\ model s' = model s
  /\ exists new, sent s' = (sent s ++ new)%list /\ Forall (carries s) new.

(** [frames R c]: the state [c] stops in is related by [R] to the state it
    started in, whatever the outcome. *)
Definition frames {A} (R : State -> State -> Prop) (c : M A) : Prop :=
  forall s, R s (final (c s)).

(** The requests sent so far are the same in both states. *)
Definition same_sent (s s' : State) : Prop := sent s' = sent s.

(** [halts c]: [c] never ends suspended. *)
Definition halts {A} (c : M A) : Prop :=
  forall s, match c s with Pending _ => False | _ => True end.




Definition prefix {A} (p l : list A) : Prop := exists rest, l = (p ++ rest)%list.


(** A value that is a non-empty text. *)
Definition populated (v : value) : Prop := exists text, v = JStr text /\ text <> "".

(** The envelopes of the code evaluation tool. *)
Definition success_envelope (code result : value) (logs : list string) : value :=
  JObj [("code", code); ("result", result);
        ("console_output", JArr (map JStr logs)); ("success", JBool true)].

Definition failure_envelope (code message : value) : value :=
  JObj [("code", code); ("error", message); ("success", JBool false)].

(** The envelopes of the search tool. *)
Definition no_results_envelope (query : value) : value :=
  JObj [("query", query); ("results", JArr []);
        ("message", JStr "No results found")].

Definition results_envelope (query : value) (results : list value) : value :=
  JObj [("query", query); ("results", JArr results)].

(** The exception [callLLM] throws on an answer of the completion endpoint
    that is not a well-formed reply: the rejection itself, the status of a
    response that is not ok, or what reading a malformed body raised. *)
Definition failure_of (answer : Fetched Reply.t) : option Exn :=
  match answer with
  | Rejected e => Some e
  | Arrived response =>
      if negb (ok response)
      then Some (Error ("LLM API error: " ++ string_of_Z (status response)
                        ++ " " ++ statusText response))
      else match body response with
           | inl e => Some e
           | inr _ => None
           end
  end.

(** The conversation a turn opens with. *)
Definition opening (userInput : string) : list Message.t :=
  [Message.mk system SYSTEM_PROMPT None None;
   Message.mk user userInput None None].

Section Properties.

Variable w : World.


(** [answers toolCall r]: [r] is the result for [toolCall]; it carries the
    id of the call, and its payload is what [executeTool] returned for the
    call or, when [executeTool] threw, the message of the exception wrapped
    as [{error: message}]. *)
Definition answers (toolCall : ToolCall.t) (r : ToolResult.t) : Prop :=
  ToolResult.tool_call_id r = ToolCall.id toolCall
  /\ exists s,
       (exists s', executeTool w toolCall s = Ok (ToolResult.result r) s')
       \/ (exists e s',
             executeTool w toolCall s = Throw e s'
             /\ ToolResult.result r = JObj [("error", JStr (exn_message e))]).






End Properties.

(** * Facts *)

(** ** The monad *)


Lemma bind_of_Ok A B (c : M A) (k : A -> M B) s a s1 :
  c s = Ok a s1 -> bind c k s = k a s1.
Proof. unfold bind. intros ->. reflexivity. Qed.

Lemma bind_of_Throw A B (c : M A) (k : A -> M B) s e s1 :
  c s = Throw e s1 -> bind c k s = Throw e s1.
Proof. unfold bind. intros ->. reflexivity. Qed.

Lemma bind_of_Pending A B (c : M A) (k : A -> M B) s s1 :
  c s = Pending s1 -> bind c k s = Pending s1.
Proof. unfold bind. intros ->. reflexivity. Qed.

Section Frames.

Variable R : State -> State -> Prop.
Hypothesis R_refl : forall s, R s s.
Hypothesis R_trans : forall s1 s2 s3, R s1 s2 -> R s2 s3 -> R s1 s3.

Lemma frames_ret A (a : A) : frames R (ret a).
Proof. intros s. apply R_refl. Qed.

Lemma frames_throw A (e : Exn) : frames R (@throw A e).
Proof. intros s. apply R_refl. Qed.

Lemma frames_bind A B (c : M A) (k : A -> M B) :
  frames R c -> (forall a, frames R (k a)) -> frames R (bind c k).
Proof.
  intros Hc Hk s. unfold bind. specialize (Hc s).
  destruct (c s) as [a s1 | e s1 | s1]; simpl in *; try assumption.
  apply R_trans with s1; [assumption | apply Hk].
Qed.

Lemma frames_try_catch A (c : M A) (h : Exn -> M A) :
  frames R c -> (forall e, frames R (h e)) -> frames R (try_catch c h).
Proof.
  intros Hc Hh s. unfold try_catch. specialize (Hc s).
  destruct (c s) as [a s1 | e s1 | s1]; simpl in *; try assumption.
  apply R_trans with s1; [assumption | apply Hh].
Qed.

Lemma frames_modify (f : State -> State) :
  (forall s, R s (f s)) -> frames R (modify f).
Proof. intros Hf s. apply Hf. Qed.

Lemma frames_mapM A B (f : A -> M B) (l : list A) :
  (forall a, frames R (f a)) -> frames R (mapM f l).
Proof.
  intros Hf. induction l as [| a rest IH]; simpl.
  - apply frames_ret.
  - apply frames_bind; [apply Hf | intros b].
    apply frames_bind; [exact IH | intros bs; apply frames_ret].
Qed.

End Frames.

(** ** What leaves the list of requests alone *)

Lemma same_sent_refl s : same_sent s s.
Proof. reflexivity. Qed.

Lemma same_sent_trans s1 s2 s3 :
  same_sent s1 s2 -> same_sent s2 s3 -> same_sent s1 s3.
Proof. unfold same_sent. congruence. Qed.

Lemma handle_same_sent ev s : same_sent s (handle ev s).
Proof.
  destruct ev; unfold same_sent; simpl.
  - unfold togglePause.
    destruct (isProcessing s), (isPaused s); reflexivity.
  - reflexivity.
  - unfold cancelProcessing. destruct (abortController s); reflexivity.
Qed.

Lemma handle_all_same_sent evs s : same_sent s (handle_all evs s).
Proof.
  unfold handle_all. revert s.
  induction evs as [| ev rest IH]; intros s; simpl.
  - reflexivity.
  - eapply same_sent_trans; [apply handle_same_sent | apply IH].
Qed.

Section ScriptFacts.

Variable w : World.

Ltac frame_step :=
  lazymatch goal with
  | |- frames _ (ret _) => apply frames_ret; exact same_sent_refl
  | |- frames _ (throw _) => apply frames_throw; exact same_sent_refl
  | |- frames _ (bind _ _) =>
      apply frames_bind; [exact same_sent_trans | | intros ?]
  | |- frames _ (try_catch _ _) =>
      apply frames_try_catch; [exact same_sent_trans | | intros ?]
  | |- frames _ (mapM _ _) =>
      apply frames_mapM; [exact same_sent_refl | exact same_sent_trans | intros ?]
  | |- frames _ (modify _) => apply frames_modify; intros ?; reflexivity
  | |- frames _ (if ?b then _ else _) => destruct b
  | |- frames _ (match ?x with _ => _ end) => destruct x
  | |- frames _ (let _ := _ in _) => cbv zeta
  end.

Lemma suspend_same_sent : frames same_sent (suspend w).
Proof.
  intros s. unfold suspend, resumed, same_sent. simpl.
  apply handle_all_same_sent.
Qed.

Lemma waitWhilePaused_same_sent polls : frames same_sent (waitWhilePaused w polls).
Proof.
  induction polls as [| p IH]; intros s; simpl.
  - destruct (isPaused s && isProcessing s); reflexivity.
  - destruct (isPaused s && isProcessing s); [| reflexivity].
    revert s. apply frames_bind;
      [exact same_sent_trans | apply suspend_same_sent | intros _; exact IH].
Qed.

Lemma checkPauseState_same_sent polls : frames same_sent (checkPauseState w polls).
Proof.
  unfold checkPauseState. frame_step.
  - intros s. destruct (isPaused s); [apply waitWhilePaused_same_sent | reflexivity].
  - intros s. destruct (aborted s); reflexivity.
Qed.

Lemma fetch_same_sent B (remote : nat -> Fetched B) : frames same_sent (fetch w remote).
Proof.
  intros s. unfold fetch. destruct (aborted s); [reflexivity |].
  unfold bind, suspend, resumed. simpl.
  destruct (aborted _); [| destruct (remote _)];
    unfold same_sent; simpl; apply handle_all_same_sent.
Qed.

Lemma read_same_sent v k : frames same_sent (read v k).
Proof. unfold read. destruct (get v k); frame_step. Qed.

Lemma destructure_same_sent v k : frames same_sent (destructure v k).
Proof. unfold destructure. destruct (get v k); frame_step. Qed.

Lemma json_same_sent B (response : Response B) : frames same_sent (json response).
Proof. unfold json. destruct (body response); frame_step. Qed.

Lemma parse_same_sent text : frames same_sent (parse w text).
Proof. unfold parse. destruct (JSON_parse w text); frame_step. Qed.

Ltac frames_auto :=
  repeat first
    [ frame_step
    | apply read_same_sent
    | apply destructure_same_sent
    | apply json_same_sent
    | apply parse_same_sent
    | apply fetch_same_sent
    | apply checkPauseState_same_sent
    | intros ?; apply fetch_same_sent ].

Lemma googleSearch_same_sent params : frames same_sent (googleSearch w params).
Proof. unfold googleSearch, snippet_of. frames_auto. Qed.

Lemma aiPipeWorkflow_same_sent params : frames same_sent (aiPipeWorkflow w params).
Proof. unfold aiPipeWorkflow. frames_auto. Qed.

Lemma executeJavaScript_same_sent params :
  frames same_sent (executeJavaScript w params).
Proof. unfold executeJavaScript. frames_auto. Qed.

Lemma executeTool_same_sent toolCall : frames same_sent (executeTool w toolCall).
Proof.
  unfold executeTool. frames_auto.
  - apply googleSearch_same_sent.
  - apply aiPipeWorkflow_same_sent.
  - apply executeJavaScript_same_sent.
Qed.

Lemma stringify_same_sent v : frames same_sent (stringify w v).
Proof. unfold stringify. destruct (JSON_stringify w v); frame_step. Qed.

Lemma updateToolCallResult_same_sent toolCallId result :
  frames same_sent (updateToolCallResult w toolCallId result).
Proof. unfold updateToolCallResult. frames_auto. apply stringify_same_sent. Qed.

Lemma catch_block_same_sent toolCallId error results :
  frames same_sent (catch_block w toolCallId error results).
Proof.
  unfold catch_block. frames_auto. apply updateToolCallResult_same_sent.
Qed.

Lemma dispatch_same_sent toolCall results :
  frames same_sent (dispatch w toolCall results).
Proof.
  intros s. unfold dispatch. cbv zeta.
  pose proof (executeTool_same_sent toolCall s) as H1.
  destruct (executeTool w toolCall s) as [result s1 | e s1 | s1]; simpl in H1.
  - pose proof (updateToolCallResult_same_sent (ToolCall.id toolCall) result s1)
      as H2.
    destruct (updateToolCallResult w (ToolCall.id toolCall) result s1)
      as [u s2 | e s2 | s2]; simpl in H2.
    + eapply same_sent_trans; eassumption.
    + eapply same_sent_trans; [exact H1 |].
      eapply same_sent_trans; [exact H2 | apply catch_block_same_sent].
    + eapply same_sent_trans; eassumption.
  - eapply same_sent_trans; [exact H1 | apply catch_block_same_sent].
  - exact H1.
Qed.




(** ** One result per tool call *)








Lemma answers_ids toolCalls results :
  Forall2 (answers w) toolCalls results ->
  map ToolResult.tool_call_id results = map ToolCall.id toolCalls.
Proof.
  induction 1 as [| toolCall r toolCalls results [Hid _] _ IH]; simpl.
  - reflexivity.
  - rewrite Hid, IH. reflexivity.
Qed.

(** ** The requests of a turn *)




Lemma agentLoop_while_S polls rounds messages :
  agentLoop_while w polls (S rounds) messages
  = (checkPauseState w polls ;;
     reply <- callLLM w messages ;;
     let '(output, toolCalls) := reply in
     checkPauseState w polls ;;
     (if nonempty (trim output)
      then modify (addMessage "agent" output) else ret tt) ;;
     match toolCalls with
     | [] => ret messages
     | _ :: _ =>
         checkPauseState w polls ;;
         toolResults <- handleToolCalls w polls toolCalls ;;
         toolMessages <- mapM (tool_message w) toolResults ;;
         agentLoop_while w polls rounds
           (messages ++ assistant_message output toolCalls :: toolMessages)
     end).
Proof. reflexivity. Qed.




End ScriptFacts.

(** ** Well-formed conversations *)

Lemma prefix_refl A (l : list A) : prefix l l.
Proof. exists []. rewrite app_nil_r. reflexivity. Qed.

Lemma prefix_trans A (l1 l2 l3 : list A) :
  prefix l1 l2 -> prefix l2 l3 -> prefix l1 l3.
Proof.
  intros [r1 ->] [r2 ->]. exists (r1 ++ r2)%list. rewrite app_assoc. reflexivity.
Qed.



Section RoundFacts.

Variable w : World.










End RoundFacts.

(** * The turn loop answers every tool call and keeps the conversation
      well formed *)





(** A turn in which the model asks for two tools, the first of them
    unknown: the second request carries the assistant message and one tool
    message per call, in the order of the calls. *)
Example two_calls_conversation :
  map (fun request =>
         map (fun m => (Message.role m, Message.tool_call_id m))
             (req_messages request))
      (sent (final (agentLoop two_calls 0 3 "hello" running)))
  = [[(system, None); (user, None)];
     [(system, None); (user, None); (assistant, None);
      (tool, Some "call_a"); (tool, Some "call_b")]].
Proof. reflexivity. Qed.

(** * The code evaluation tool *)

(** C5: when the evaluated code completes without throwing,
    [executeJavaScript] returns the envelope
    [{code, result, console_output, success: true}]: [result] is the value
    of the code when [return_value] is true (or left out) and [null] when
    it is false, and [console_output] holds the lines the mock console
    collected.  In particular, on a host that evaluates ["return 1+1"] to 2
    without console output, the envelope has result 2, an empty
    console_output and success true. *)
Theorem code_eval_success w params s code r result :
  get params "code" = Some code ->
  get params "return_value" = Some r ->
  completion (run_Function w code) = Returned result ->
  let logs := map (log_line w) (console_calls (run_Function w code)) in
  executeJavaScript w params s
  = Ok (success_envelope code
          (if truthy (with_default (JBool true) r) then result else null) logs) s
  /\ (r = JBool true \/ r = undefined ->
      executeJavaScript w params s = Ok (success_envelope code result logs) s)
  /\ (r = JBool false ->
      executeJavaScript w params s = Ok (success_envelope code null logs) s)
  /\ (code = JStr "return 1+1" -> r = JBool true ->
      run_Function w code = mkRun [] (Returned (JNum 2)) ->
      executeJavaScript w params s
      = Ok (JObj [("code", JStr "return 1+1"); ("result", JNum 2);
                  ("console_output", JArr []); ("success", JBool true)]) s).
Proof.
  intros Hcode Hr Hrun logs.
  assert (E : executeJavaScript w params s
              = Ok (success_envelope code
                      (if truthy (with_default (JBool true) r)
                       then result else null) logs) s).
  { unfold executeJavaScript, destructure, bind, ret.
    rewrite Hcode, Hr. cbv beta iota zeta. rewrite Hrun. reflexivity. }
  split; [exact E |]. split; [| split].
  - intros [-> | ->]; exact E.
  - intros ->. exact E.
  - intros -> -> Hhost. rewrite E. subst logs. rewrite Hhost in *. simpl in *.
    injection Hrun as <-. reflexivity.
Qed.

Lemma code_eval_success_witness :
  executeJavaScript calculator
    (JObj [("code", JStr "return 1+1"); ("return_value", JBool true)]) running
  = Ok (JObj [("code", JStr "return 1+1"); ("result", JNum 2);
              ("console_output", JArr []); ("success", JBool true)]) running.
Proof.
  exact (proj1 (@code_eval_success calculator
                  (JObj [("code", JStr "return 1+1"); ("return_value", JBool true)])
                  running (JStr "return 1+1") (JBool true) (JNum 2)
                  eq_refl eq_refl eq_refl)).
Defined.

(** C6 as stated fails: code that throws a string instead of an Error
    object gets an envelope whose [error] is undefined. *)
Lemma thrown_string_leaves_error_undefined :
  exists envelope,
    completion (run_Function calculator (JStr "throw 'oops'")) = Thrown (JStr "oops")
    /\ executeJavaScript calculator (JObj [("code", JStr "throw 'oops'")]) running
       = Ok envelope running
    /\ get envelope "success" = Some (JBool false)
    /\ get envelope "error" = Some undefined
    /\ (forall v, get envelope "error" = Some v -> ~ populated v).
Proof.
  eexists. split; [reflexivity |]. split; [reflexivity |].
  split; [reflexivity |]. split; [reflexivity |].
  intros v Hv (text & -> & _). discriminate.
Qed.

(** C6, amended: when the evaluated code throws a value that has a
    [message] property (an Error object above all), [executeJavaScript]
    returns the envelope [{code, error, success: false}] whose [error] is
    that message, with neither a result nor a console_output field.  For a
    thrown Error object the error is its message text, populated whenever
    that text is not empty. *)
Theorem code_eval_failure w params s code r error message :
  get params "code" = Some code ->
  get params "return_value" = Some r ->
  completion (run_Function w code) = Thrown error ->
  get error "message" = Some message ->
  executeJavaScript w params s = Ok (failure_envelope code message) s
  /\ get (failure_envelope code message) "success" = Some (JBool false)
  /\ has_field (failure_envelope code message) "result" = false
  /\ has_field (failure_envelope code message) "console_output" = false
  /\ (forall e, error = error_value e ->
        message = JStr (exn_message e)
        /\ (exn_message e <> "" -> populated message)).
Proof.
  intros Hcode Hr Hrun Hmessage. split; [| split; [| split; [| split]]].
  - unfold executeJavaScript, destructure, read, bind, ret.
    rewrite Hcode, Hr. cbv beta iota zeta. rewrite Hrun, Hmessage. reflexivity.
  - reflexivity.
  - reflexivity.
  - reflexivity.
  - intros e ->. simpl in Hmessage. injection Hmessage as <-.
    split; [reflexivity |]. intros Hne. exists (exn_message e). auto.
Qed.

Lemma code_eval_failure_witness :
  executeJavaScript calculator (JObj [("code", JStr "throw new Error('boom')")])
                    running
  = Ok (failure_envelope (JStr "throw new Error('boom')") (JStr "boom")) running.
Proof.
  exact (proj1 (@code_eval_failure calculator
                  (JObj [("code", JStr "throw new Error('boom')")]) running
                  (JStr "throw new Error('boom')") undefined
                  (error_value (Error "boom")) (JStr "boom")
                  eq_refl eq_refl eq_refl eq_refl)).
Defined.

(** * The search tool *)

(** With a response in hand whose body was read as [data], the search tool
    goes by [data.items] alone. *)
Lemma googleSearch_response w params s query n response data items :
  get params "query" = Some query ->
  get params "num_results" = Some n ->
  aborted s = false ->
  aborted (resumed w s) = false ->
  customsearch w (clock s) query (with_default (JNum 5) n) = Arrived response ->
  body response = inr data ->
  get data "items" = Some items ->
  (truthy items = false ->
   googleSearch w params s = Ok (no_results_envelope query) (resumed w s))
  /\ (items = JArr [] ->
      googleSearch w params s = Ok (results_envelope query []) (resumed w s)).
Proof.
  intros Hq Hn Ha Ha' Hfetch Hbody Hitems.
  assert (E : forall k : Response value -> M value,
             bind (fetch w (fun t => customsearch w t query
                                       (with_default (JNum 5) n))) k s
             = k response (resumed w s)).
  { intros k. unfold bind at 1, fetch. rewrite Ha, Hfetch.
    unfold bind, suspend. rewrite Ha'. reflexivity. }
  split.
  - intros Hfalsy.
    unfold googleSearch, destructure. rewrite Hq, Hn.
    unfold bind at 1 2, ret at 1 2. cbv beta iota zeta.
    unfold try_catch. rewrite E.
    unfold json, read, bind, ret. rewrite Hbody. cbv beta iota.
    rewrite Hitems. cbv beta iota. rewrite Hfalsy. reflexivity.
  - intros ->.
    unfold googleSearch, destructure. rewrite Hq, Hn.
    unfold bind at 1 2, ret at 1 2. cbv beta iota zeta.
    unfold try_catch. rewrite E.
    unfold json, read, bind, ret. rewrite Hbody. cbv beta iota.
    rewrite Hitems. reflexivity.
Qed.

(** C7 as stated fails: when the provider reports zero hits as an empty
    [items] array, the envelope has the query and an empty result list but
    no explanatory message. *)
Lemma empty_items_array_has_no_message :
  exists envelope s',
    googleSearch empty_items (JObj [("query", JStr "zzyzx")]) running
    = Ok envelope s'
    /\ get envelope "results" = Some (JArr [])
    /\ has_field envelope "message" = false.
Proof.
  exists (results_envelope (JStr "zzyzx") []), (resumed empty_items running).
  split; [reflexivity | split; reflexivity].
Qed.

(** C7, amended: a response that carries zero result items makes the
    search tool return normally, with an envelope that holds the query and
    an empty result list and has no error field.  The explanatory message
    "No results found" is part of the envelope when the body has no
    [items] field (or a falsy one); it is left out when [items] is an
    empty array. *)
Theorem search_without_results w params s query n response data items :
  get params "query" = Some query ->
  get params "num_results" = Some n ->
  aborted s = false ->
  aborted (resumed w s) = false ->
  customsearch w (clock s) query (with_default (JNum 5) n) = Arrived response ->
  body response = inr data ->
  get data "items" = Some items ->
  (truthy items = false ->
   googleSearch w params s
   = Ok (JObj [("query", query); ("results", JArr []);
               ("message", JStr "No results found")]) (resumed w s))
  /\ (items = JArr [] ->
      googleSearch w params s
      = Ok (JObj [("query", query); ("results", JArr [])]) (resumed w s))
  /\ has_field (no_results_envelope query) "error" = false
  /\ has_field (results_envelope query []) "error" = false.
Proof.
  intros Hq Hn Ha Ha' Hfetch Hbody Hitems.
  destruct (googleSearch_response w params s Hq Hn Ha Ha' Hfetch Hbody Hitems)
    as [H1 H2].
  repeat split; assumption.
Qed.

Lemma search_without_results_witness :
  googleSearch no_hits (JObj [("query", JStr "zzyzx")]) running
  = Ok (JObj [("query", JStr "zzyzx"); ("results", JArr []);
              ("message", JStr "No results found")])
       (resumed no_hits running).
Proof.
  exact (proj1 (@search_without_results no_hits
                  (JObj [("query", JStr "zzyzx")]) running (JStr "zzyzx")
                  undefined _ _ undefined
                  eq_refl eq_refl eq_refl eq_refl eq_refl eq_refl eq_refl)
               eq_refl).
Defined.



(** * Completion requests and the end of a turn *)

Lemma checkPauseState_running w polls s :
  isPaused s = false -> aborted s = false -> checkPauseState w polls s = Ok tt s.
Proof.
  intros Hp Ha. unfold checkPauseState, bind. rewrite Hp, Ha. reflexivity.
Qed.

Lemma waitWhilePaused_Ok w polls : forall s u s',
  waitWhilePaused w polls s = Ok u s' -> isPaused s' && isProcessing s' = false.
Proof.
  induction polls as [| p IH]; intros s u s'; simpl;
    destruct (isPaused s && isProcessing s) eqn:E; try discriminate.
  - intros H. injection H as _ <-. exact E.
  - unfold bind, suspend. apply IH.
  - intros H. injection H as _ <-. exact E.
Qed.

(** A checkpoint that lets the loop through leaves it with a signal that
    is not aborted. *)
Lemma checkPauseState_Ok w polls s u s' :
  checkPauseState w polls s = Ok u s' -> aborted s' = false.
Proof.
  unfold checkPauseState, bind.
  destruct (if isPaused s then waitWhilePaused w polls s else Ok tt s)
    as [u1 s1 | e s1 | s1]; try discriminate.
  destruct (aborted s1) eqn:E; [discriminate |].
  intros H. injection H as _ <-. exact E.
Qed.

(** What [callLLM] comes to once its request has left. *)
Lemma callLLM_answered w messages s headers :
  aborted s = false ->
  getHeaders s = Ok headers s ->
  callLLM w messages s
  = let request := request_for headers messages s in
    let s1 := resumed w (set_sent (sent s ++ [request]) s) in
    if aborted s1 then Throw AbortError s1
    else match chat_completions w (clock s) request with
         | Rejected e => Throw e s1
         | Arrived response =>
             if negb (ok response)
             then Throw (Error ("LLM API error: "
                                ++ string_of_Z (status response)
                                ++ " " ++ statusText response)) s1
             else match body response with
                  | inl e => Throw e s1
                  | inr message =>
                      Ok (match Reply.content message with
                          | Some c => c | None => "" end,
                          match Reply.tool_calls message with
                          | Some l => l | None => [] end) s1
                  end
         end.
Proof.
  intros Ha Hh. unfold callLLM, bind. rewrite Hh. cbv beta iota zeta.
  unfold post, fetch. rewrite Ha.
  replace (aborted (set_sent (sent s ++ [request_for headers messages s]) s))
    with false by (symmetry; exact Ha).
  unfold bind, suspend. cbv beta iota. simpl clock.
  destruct (aborted (resumed w _)); [reflexivity |].
  destruct (chat_completions w (clock s) _) as [e | response]; [reflexivity |].
  destruct (ok response); simpl; [| reflexivity].
  unfold json. destruct (body response); reflexivity.
Qed.

(** C8: a completion request that fails ends the turn there and then.  In
    any iteration of the loop that gets past its first checkpoint and
    sends its request: if the signal is aborted while the request is out,
    the loop throws the AbortError and [sendMessage] reports
    "Request was cancelled by user."; if the remote end fails in any other
    way (the call is rejected, the status is not ok, the body is
    malformed), the loop throws that failure and [sendMessage] reports it
    as "Error: ..." (for a status that is not ok,
    "Error: LLM API error: <status> <statusText>").  Either way the turn is
    over ([isProcessing] is false again) and the failed request is the
    last one sent: nothing is retried. *)
Theorem completion_failure_ends_turn w polls rounds messages s s1 headers :
  checkPauseState w polls s = Ok tt s1 ->
  getHeaders s1 = Ok headers s1 ->
  let request := request_for headers messages s1 in
  let s2 := resumed w (set_sent (sent s1 ++ [request]) s1) in
  let turn := agentLoop_while w polls (S rounds) messages s in
  sent s2 = (sent s ++ [request])%list
  /\ (aborted s2 = true ->
      turn = Throw AbortError s2
      /\ settle turn
         = Ok tt (finally (addMessage "error" "Request was cancelled by user." s2)))
  /\ (forall e,
        aborted s2 = false ->
        failure_of (chat_completions w (clock s1) request) = Some e ->
        turn = Throw e s2
        /\ (exn_name e <> "AbortError" ->
            settle turn
            = Ok tt (finally (addMessage "error" ("Error: " ++ exn_message e) s2))))
  /\ (forall response,
        aborted s2 = false ->
        chat_completions w (clock s1) request = Arrived response ->
        ok response = false ->
        settle turn
        = Ok tt (finally (addMessage "error"
                            ("Error: LLM API error: "
                             ++ string_of_Z (status response)
                             ++ " " ++ statusText response) s2)))
  /\ isProcessing (finally s2) = false.
Proof.
  intros Hcheck Hh request s2 turn.
  assert (Ha : aborted s1 = false) by (eapply checkPauseState_Ok; exact Hcheck).
  assert (Hturn : turn = bind (callLLM w messages)
                           (fun reply =>
                              let '(output, toolCalls) := reply in
                              checkPauseState w polls ;;
                              (if nonempty (trim output)
                               then modify (addMessage "agent" output)
                               else ret tt) ;;
                              match toolCalls with
                              | [] => ret messages
                              | _ :: _ =>
                                  checkPauseState w polls ;;
                                  toolResults <- handleToolCalls w polls toolCalls ;;
                                  toolMessages <- mapM (tool_message w) toolResults ;;
                                  agentLoop_while w polls rounds
                                    (messages ++ assistant_message output toolCalls
                                       :: toolMessages)
                              end) s1).
  { unfold turn. rewrite agentLoop_while_S.
    erewrite bind_of_Ok by exact Hcheck. reflexivity. }
  pose proof (callLLM_answered w messages Ha Hh) as Hcall.
  cbv zeta in Hcall. fold request in Hcall. fold s2 in Hcall.
  assert (Hsent : sent s2 = (sent s ++ [request])%list).
  { pose proof (checkPauseState_same_sent w polls s) as F.
    rewrite Hcheck in F. unfold same_sent in F. simpl in F.
    unfold s2, resumed. simpl.
    rewrite (handle_all_same_sent _ _). simpl. rewrite F. reflexivity. }
  split; [exact Hsent |]. split; [| split; [| split]].
  - intros Hab. rewrite Hab in Hcall.
    assert (E : turn = Throw AbortError s2).
    { rewrite Hturn. erewrite bind_of_Throw by exact Hcall. reflexivity. }
    split; [exact E |]. rewrite E. reflexivity.
  - intros e Hab Hfail. rewrite Hab in Hcall.
    assert (E : turn = Throw e s2).
    { rewrite Hturn. unfold failure_of in Hfail.
      destruct (chat_completions w (clock s1) request) as [e0 | response].
      - injection Hfail as <-. erewrite bind_of_Throw by exact Hcall. reflexivity.
      - destruct (negb (ok response)).
        + injection Hfail as <-.
          erewrite bind_of_Throw by exact Hcall. reflexivity.
        + destruct (body response) as [e0 | message]; [| discriminate].
          injection Hfail as <-.
          erewrite bind_of_Throw by exact Hcall. reflexivity. }
    split; [exact E |]. intros Hname. rewrite E. simpl.
    destruct (String.eqb_spec (exn_name e) "AbortError"); [contradiction |].
    reflexivity.
  - intros response Hab Hresp Hok. rewrite Hab, Hresp, Hok in Hcall. simpl in Hcall.
    rewrite Hturn. erewrite bind_of_Throw by exact Hcall. reflexivity.
  - reflexivity.
Qed.

Lemma completion_failure_ends_turn_witness :
  settle (agentLoop_while model_down 0 1 (opening "hello") running)
  = Ok tt
      (finally
         (addMessage "error" "Error: LLM API error: 500 Internal Server Error"
            (resumed model_down
               (set_sent
                  [request_for [("Content-Type", "application/json")]
                               (opening "hello") running] running)))).
Proof.
  exact (proj1 (proj2 (proj2 (proj2
           (@completion_failure_ends_turn model_down 0 0 (opening "hello")
              running running [("Content-Type", "application/json")]
              eq_refl eq_refl))))
           (mkResponse false 500 "Internal Server Error"
                       (inl (mkExn "SyntaxError" "Unexpected token <")))
           eq_refl eq_refl eq_refl).
Defined.




(** * The pause/cancel gate *)

Lemma set_clock_same s : set_clock (clock s) s = s.
Proof. destruct s. reflexivity. Qed.

(** While the agent is paused and processing and nobody clicks, the gate
    keeps polling. *)
Lemma waitWhilePaused_stuck w polls : forall s,
  isPaused s = true -> isProcessing s = true ->
  (forall t, clock s <= t -> ui w t = []) ->
  waitWhilePaused w polls s = Pending (set_clock (polls + clock s) s).
Proof.
  induction polls as [| p IH]; intros s Hp Hr Hquiet; simpl; rewrite Hp, Hr; simpl.
  - rewrite set_clock_same. reflexivity.
  - unfold bind, suspend, resumed. rewrite (Hquiet (clock s)) by lia. simpl.
    rewrite IH; simpl; try assumption.
    + f_equal. unfold set_clock. simpl. f_equal. lia.
    + intros t Ht. apply Hquiet. lia.
Qed.

(** A checkpoint reached after a cancel raises at once when the agent is
    not paused. *)
Lemma checkPauseState_cancelled w polls s :
  isPaused s = false -> aborted s = true ->
  checkPauseState w polls s = Throw (Error "Request was cancelled") s.
Proof.
  intros Hp Ha. unfold checkPauseState, bind. rewrite Hp, Ha. reflexivity.
Qed.

Lemma checkPauseState_cancelled_witness :
  checkPauseState plain_answer 0 (set_abortController (Some true) running)
  = Throw (Error "Request was cancelled")
          (set_abortController (Some true) running).
Proof.
  exact (@checkPauseState_cancelled plain_answer 0
           (set_abortController (Some true) running) eq_refl eq_refl).
Defined.

(** A cancel issued while the agent is paused does not end the wait of the
    gate: with no further click, the checkpoint is still polling after any
    number of rounds, the abort notwithstanding. *)
Lemma checkPauseState_cancelled_while_paused w polls s :
  isPaused s = true -> isProcessing s = true ->
  (forall t, clock s <= t -> ui w t = []) ->
  checkPauseState w polls (cancelProcessing s)
  = Pending (set_clock (polls + clock s) (cancelProcessing s)).
Proof.
  intros Hp Hr Hquiet.
  assert (Hp' : isPaused (cancelProcessing s) = true).
  { unfold cancelProcessing. destruct (abortController s); exact Hp. }
  assert (Hr' : isProcessing (cancelProcessing s) = true).
  { unfold cancelProcessing. destruct (abortController s); exact Hr. }
  assert (Hc : clock (cancelProcessing s) = clock s).
  { unfold cancelProcessing. destruct (abortController s); reflexivity. }
  unfold checkPauseState, bind. rewrite Hp'.
  rewrite waitWhilePaused_stuck; try assumption.
  - rewrite Hc. reflexivity.
  - rewrite Hc. exact Hquiet.
Qed.

(** C1, at two inputs on which the code departs from it.  First: the
    user pauses while the first request is out and presses Cancel in the
    dialog during the first poll of the gate.  Second: the model has
    issued a search call, and the user pauses and cancels while the search
    is in flight; the aborted search becomes an error result, and the next
    checkpoint finds the agent paused.  In both runs, however many polls
    and rounds one watches, [sendMessage] is still pending: the agent
    stays paused and processing with its signal aborted, and no checkpoint
    has raised. *)
Theorem cancel_while_paused_is_pending polls rounds :
  (exists s,
     sendMessage pause_then_cancel (S polls) (S rounds) "hello" idle = Pending s
     /\ isProcessing s = true
     /\ isPaused s = true
     /\ aborted s = true
     /\ display s
        = [addedMessage "user" "hello";
           addedMessage "agent" "❌ **Processing cancelled by user.**"])
  /\ (exists s,
        sendMessage cancel_during_search polls (S (S rounds)) "hello" idle
        = Pending s
        /\ isProcessing s = true
        /\ isPaused s = true
        /\ aborted s = true
        /\ display s
           = [addedMessage "user" "hello";
              addedMessage "agent" "Searching.";
              addedToolCalls [search_call];
              addedMessage "agent" "❌ **Processing cancelled by user.**";
              updatedToolCallResult "call_s"
                (JObj [("error",
                        JStr "Search failed: The user aborted a request.")])]).
Proof.
  split.
  - unfold sendMessage. change (trim "hello") with "hello".
    cbv beta iota zeta. simpl negb. simpl orb. cbv iota.
    unfold agentLoop. rewrite agentLoop_while_S.
    erewrite bind_of_Ok by reflexivity.
    erewrite bind_of_Ok by reflexivity. cbv beta iota.
    match goal with
    | |- context [bind (checkPauseState ?w ?p) ?k ?s1] =>
        assert (E : checkPauseState w p s1
                    = Pending (set_clock (polls + 2) (cancelProcessing s1)))
    end.
    { unfold checkPauseState, bind. simpl isPaused. cbv iota.
      simpl waitWhilePaused. unfold bind, suspend.
      rewrite waitWhilePaused_stuck; try reflexivity.
      intros [| [| t]] Ht; simpl in Ht; try lia; reflexivity. }
    erewrite bind_of_Pending by exact E.
    eexists. split; [reflexivity |]. repeat split.
  - unfold sendMessage, agentLoop. rewrite agentLoop_while_S.
    lazy -[agentLoop_while waitWhilePaused].
    rewrite agentLoop_while_S. unfold bind at 1, checkPauseState at 1.
    lazy -[agentLoop_while waitWhilePaused].
    rewrite waitWhilePaused_stuck; try reflexivity.
    + eexists. split; [reflexivity |]. repeat split.
    + intros [| [| t]] Ht; simpl in Ht; try lia; reflexivity.
Qed.

(** * Tool dispatch *)

Lemma halts_ret A (a : A) : halts (ret a).
Proof. intros s. exact I. Qed.

Lemma halts_throw A (e : Exn) : halts (@throw A e).
Proof. intros s. exact I. Qed.

Lemma halts_bind A B (c : M A) (k : A -> M B) :
  halts c -> (forall a, halts (k a)) -> halts (bind c k).
Proof.
  intros Hc Hk s. unfold bind. specialize (Hc s).
  destruct (c s) as [a s1 | e s1 | s1]; [apply Hk | exact I | exact Hc].
Qed.

Lemma halts_try_catch A (c : M A) (h : Exn -> M A) :
  halts c -> (forall e, halts (h e)) -> halts (try_catch c h).
Proof.
  intros Hc Hh s. unfold try_catch. specialize (Hc s).
  destruct (c s) as [a s1 | e s1 | s1]; [exact I | apply Hh | exact Hc].
Qed.

Lemma halts_mapM A B (f : A -> M B) (l : list A) :
  (forall a, halts (f a)) -> halts (mapM f l).
Proof.
  intros Hf. induction l as [| a rest IH]; simpl.
  - apply halts_ret.
  - apply halts_bind; [apply Hf | intros b].
    apply halts_bind; [exact IH | intros bs; apply halts_ret].
Qed.

Section DispatchFacts.

Variable w : World.

Lemma halts_fetch B (remote : nat -> Fetched B) : halts (fetch w remote).
Proof.
  intros s. unfold fetch. destruct (aborted s); [exact I |].
  unfold bind, suspend. destruct (aborted _); [exact I |].
  destruct (remote _); exact I.
Qed.

Ltac halt_step :=
  lazymatch goal with
  | |- halts (ret _) => apply halts_ret
  | |- halts (throw _) => apply halts_throw
  | |- halts (bind _ _) => apply halts_bind; [| intros ?]
  | |- halts (try_catch _ _) => apply halts_try_catch; [| intros ?]
  | |- halts (mapM _ _) => apply halts_mapM; intros ?
  | |- halts (modify _) => intros ?; exact I
  | |- halts (fetch _ _) => apply halts_fetch
  | |- halts (fun s => fetch _ _ s) => intros ?; apply halts_fetch
  | |- halts (read ?v ?k) => unfold read; destruct (get v k)
  | |- halts (destructure ?v ?k) => unfold destructure; destruct (get v k)
  | |- halts (json ?r) => unfold json; destruct (body r)
  | |- halts (parse _ ?t) => unfold parse; destruct (JSON_parse w t)
  | |- halts (if ?b then _ else _) => destruct b
  | |- halts (match ?x with _ => _ end) => destruct x
  | |- halts (let _ := _ in _) => cbv zeta
  end.

Lemma halts_executeTool toolCall : halts (executeTool w toolCall).
Proof.
  unfold executeTool. cbv zeta. halt_step; [halt_step; halt_step |].
  repeat match goal with
         | |- halts (if ?b then _ else _) => destruct b
         end.
  - unfold googleSearch, snippet_of. repeat halt_step.
  - unfold aiPipeWorkflow. repeat halt_step.
  - unfold executeJavaScript. repeat halt_step.
  - halt_step.
Qed.

Lemma catch_block_returns toolCallId error results s text :
  JSON_stringify w (JObj [("error", JStr (exn_message error))]) = inr text ->
  catch_block w toolCallId error results s
  = Ok (results ++ [ToolResult.mk toolCallId
                      (JObj [("error", JStr (exn_message error))])])%list
       (render (updatedToolCallResult toolCallId
                  (JObj [("error", JStr (exn_message error))])) s).
Proof.
  intros H. unfold catch_block, updateToolCallResult, stringify, bind.
  cbv zeta. rewrite H. reflexivity.
Qed.


(** A call of a tool that is not in the catalogue, with arguments that
    parse, is answered with [{error: "Unknown tool: <name>"}]. *)
Lemma dispatch_unknown_tool toolCall results s params text :
  let name := ToolCall.name (ToolCall.function toolCall) in
  let errorResult := JObj [("error", JStr ("Unknown tool: " ++ name))] in
  JSON_parse w (ToolCall.arguments (ToolCall.function toolCall)) = inr params ->
  ~ In name TOOLS ->
  JSON_stringify w errorResult = inr text ->
  dispatch w toolCall results s
  = Ok (results ++ [ToolResult.mk (ToolCall.id toolCall) errorResult])%list
       (render (updatedToolCallResult (ToolCall.id toolCall) errorResult) s).
Proof.
  intros name errorResult Hparse Hname Htext.
  assert (E : executeTool w toolCall s
              = Throw (Error ("Unknown tool: " ++ name)) s).
  { unfold executeTool, parse, bind. rewrite Hparse. unfold ret. fold name.
    destruct (String.eqb_spec name "google_search") as [E | _];
      [destruct Hname; rewrite E; simpl; auto |].
    destruct (String.eqb_spec name "ai_pipe_workflow") as [E | _];
      [destruct Hname; rewrite E; simpl; auto |].
    destruct (String.eqb_spec name "execute_javascript") as [E | _];
      [destruct Hname; rewrite E; simpl; auto |].
    reflexivity. }
  unfold dispatch. cbv zeta. rewrite E.
  apply (catch_block_returns (ToolCall.id toolCall)
           (Error ("Unknown tool: " ++ name)) results s Htext).
Qed.

End DispatchFacts.


Lemma dispatch_unknown_tool_witness :
  dispatch two_calls unknown_call [] running
  = Ok [ToolResult.mk "call_a"
          (JObj [("error", JStr "Unknown tool: get_weather")])]
       (render (updatedToolCallResult "call_a"
                  (JObj [("error", JStr "Unknown tool: get_weather")])) running).
Proof.
  refine (@dispatch_unknown_tool two_calls unknown_call [] running (JObj [])
            _ eq_refl _ eq_refl).
  simpl. intros [H | [H | [H | []]]]; discriminate H.
Defined.

(** C2, at two inputs on which the code departs from it.  First: the
    model's tool call carries arguments that do not parse.
    [handleToolCalls] throws the SyntaxError before any tool is dispatched
    (the cards of the tool calls are built from the parsed arguments
    outside the try block), so no tool result is produced, and
    [sendMessage] ends the turn with an error message after the one
    request.  Second: the evaluated code returns a value without a JSON
    text.  The update of its card throws inside the try block after the
    result was pushed, so the call ends up with two results, and the turn
    ends with an error message when the first of them is to become a tool
    message. *)
Theorem uncaught_tool_failures_end_the_turn polls rounds :
  (handleToolCalls truncated_arguments polls [truncated_call] running
   = Throw (mkExn "SyntaxError" "Unexpected end of JSON input") running
   /\ exists s,
        sendMessage truncated_arguments polls (S rounds) "hello" idle = Ok tt s
        /\ display s
           = [addedMessage "user" "hello";
              addedMessage "agent" "Let me search for that.";
              addedMessage "error" "Error: Unexpected end of JSON input"]
        /\ length (sent s) = 1
        /\ isProcessing s = false)
  /\ (exists results s1,
        handleToolCalls big_power polls [power_call] running = Ok results s1
        /\ map ToolResult.tool_call_id results = ["call_p"; "call_p"])
  /\ (exists s,
        sendMessage big_power polls (S rounds) "hello" idle = Ok tt s
        /\ display s
           = [addedMessage "user" "hello";
              addedMessage "agent" "Computing.";
              addedToolCalls [power_call];
              updatedToolCallResult "call_p"
                (JObj [("error",
                        JStr "Do not know how to serialize a BigInt")]);
              addedMessage "error"
                "Error: Do not know how to serialize a BigInt"]
        /\ length (sent s) = 1
        /\ isProcessing s = false).
Proof.
  split; [split; [reflexivity |] | split].
  - eexists. split; [reflexivity |]. repeat split.
  - eexists. eexists. split; reflexivity.
  - eexists. split; [reflexivity |]. repeat split.
Qed.

(** * More on the pause/cancel gate *)

(** What the click handlers leave alone. *)
Lemma handle_keeps ev s :
  isProcessing (handle ev s) = isProcessing s
  /\ currentProvider (handle ev s) = currentProvider s
  /\ apiKey (handle ev s) = apiKey s
  /\ model (handle ev s) = model s
  /\ clock (handle ev s) = clock s
  /\ sent (handle ev s) = sent s
  /\ (aborted s = true -> aborted (handle ev s) = true)
  /\ (abortController s = None -> abortController (handle ev s) = None)
  /\ prefix (display s) (display (handle ev s)).
Proof.
  destruct ev; simpl.
  - unfold togglePause. destruct (isProcessing s) eqn:Hp; simpl.
    + destruct (isPaused s); simpl; repeat split; auto;
        first [ apply prefix_refl | eexists; reflexivity ].
    + repeat split; auto. apply prefix_refl.
  - unfold resumeProcessing. simpl. repeat split; auto. eexists; reflexivity.
  - unfold cancelProcessing, aborted.
    destruct (abortController s) as [b |] eqn:Hc; simpl;
      repeat split; auto; try discriminate; eexists; reflexivity.
Qed.

Lemma handle_all_keeps evs s :
  isProcessing (handle_all evs s) = isProcessing s
  /\ currentProvider (handle_all evs s) = currentProvider s
  /\ apiKey (handle_all evs s) = apiKey s
  /\ model (handle_all evs s) = model s
  /\ clock (handle_all evs s) = clock s
  /\ sent (handle_all evs s) = sent s
  /\ (aborted s = true -> aborted (handle_all evs s) = true)
  /\ (abortController s = None -> abortController (handle_all evs s) = None)
  /\ prefix (display s) (display (handle_all evs s)).
Proof.
  unfold handle_all. revert s.
  induction evs as [| ev rest IH]; intros s; simpl.
  - repeat split; auto. apply prefix_refl.
  - destruct (handle_keeps ev s) as (H1 & H2 & H3 & H4 & H5 & H6 & H7 & H8 & H9).
    destruct (IH (handle ev s)) as (I1 & I2 & I3 & I4 & I5 & I6 & I7 & I8 & I9).
    repeat split; try congruence; auto.
    eapply prefix_trans; eassumption.
Qed.

(** However the user clicks on the pause button and on the two buttons of
    the pause dialog, the handlers never end or start a turn, never touch
    the settings or the requests sent, never take anything off the page,
    and never undo a cancel: once the signal is aborted it stays aborted,
    and no click creates a controller. *)
Theorem clicks_keep_turn_and_settings evs s :
  isProcessing (handle_all evs s) = isProcessing s
  /\ currentProvider (handle_all evs s) = currentProvider s
  /\ apiKey (handle_all evs s) = apiKey s
  /\ model (handle_all evs s) = model s
  /\ sent (handle_all evs s) = sent s
  /\ prefix (display s) (display (handle_all evs s))
  /\ (aborted s = true -> aborted (handle_all evs s) = true)
  /\ (abortController s = None -> abortController (handle_all evs s) = None).
Proof.
  destruct (handle_all_keeps evs s) as (H1 & H2 & H3 & H4 & H5 & H6 & H7 & H8 & H9).
  repeat split; assumption.
Qed.




(** * What a turn keeps *)

(** A relation on states that every step of the script respects is
    respected by the whole loop, whatever the outcome. *)
Section Invariants.

Variable w : World.
Variable R : State -> State -> Prop.
Hypothesis R_refl : forall s, R s s.
Hypothesis R_trans : forall s1 s2 s3, R s1 s2 -> R s2 s3 -> R s1 s3.
Hypothesis R_resumed : forall s, R s (resumed w s).
Hypothesis R_render : forall r s, R s (render r s).
Hypothesis R_sent : forall headers messages s,
  getHeaders s = Ok headers s ->
  R s (set_sent (sent s ++ [request_for headers messages s]) s).

Ltac keep_step :=
  lazymatch goal with
  | |- frames _ (ret _) => apply frames_ret; exact R_refl
  | |- frames _ (throw _) => apply frames_throw; exact R_refl
  | |- frames _ (bind _ _) => apply frames_bind; [exact R_trans | | intros ?]
  | |- frames _ (try_catch _ _) =>
      apply frames_try_catch; [exact R_trans | | intros ?]
  | |- frames _ (mapM _ _) =>
      apply frames_mapM; [exact R_refl | exact R_trans | intros ?]
  | |- frames _ (modify (render _)) => apply frames_modify; intros ?; apply R_render
  | |- frames _ (modify (addMessage _ _)) =>
      apply frames_modify; intros ?; apply R_render
  | |- frames _ (if ?b then _ else _) => destruct b
  | |- frames _ (match ?x with _ => _ end) => destruct x
  | |- frames _ (let _ := _ in _) => cbv zeta
  end.

Lemma keeps_suspend : frames R (suspend w).
Proof. intros s. apply R_resumed. Qed.

Lemma keeps_waitWhilePaused polls : frames R (waitWhilePaused w polls).
Proof.
  induction polls as [| p IH]; intros s; simpl.
  - destruct (isPaused s && isProcessing s); apply R_refl.
  - destruct (isPaused s && isProcessing s); [| apply R_refl].
    revert s. apply frames_bind;
      [exact R_trans | apply keeps_suspend | intros _; exact IH].
Qed.

Lemma keeps_checkPauseState polls : frames R (checkPauseState w polls).
Proof.
  unfold checkPauseState. keep_step.
  - intros s. destruct (isPaused s); [apply keeps_waitWhilePaused | apply R_refl].
  - intros s. destruct (aborted s); apply R_refl.
Qed.

Lemma keeps_fetch B (remote : nat -> Fetched B) : frames R (fetch w remote).
Proof.
  intros s. unfold fetch. destruct (aborted s); [apply R_refl |].
  unfold bind, suspend. simpl.
  destruct (aborted _); [| destruct (remote _)]; simpl; apply R_resumed.
Qed.

Lemma keeps_read v k : frames R (read v k).
Proof. unfold read. destruct (get v k); keep_step. Qed.

Lemma keeps_destructure v k : frames R (destructure v k).
Proof. unfold destructure. destruct (get v k); keep_step. Qed.

Lemma keeps_json B (response : Response B) : frames R (json response).
Proof. unfold json. destruct (body response); keep_step. Qed.

Lemma keeps_parse text : frames R (parse w text).
Proof. unfold parse. destruct (JSON_parse w text); keep_step. Qed.

Lemma keeps_stringify v : frames R (stringify w v).
Proof. unfold stringify. destruct (JSON_stringify w v); keep_step. Qed.

Lemma keeps_getHeaders : frames R (getHeaders).
Proof.
  intros s. unfold getHeaders.
  destruct (nonempty (apiKey s)); [| destruct (String.eqb _ _)]; apply R_refl.
Qed.

Lemma keeps_post headers messages s :
  getHeaders s = Ok headers s ->
  R s (final (post w (request_for headers messages s) s)).
Proof.
  intros Hh. unfold post. destruct (aborted s).
  - apply keeps_fetch.
  - eapply R_trans; [apply (R_sent messages Hh) | apply keeps_fetch].
Qed.

Ltac keeps :=
  repeat first
    [ keep_step
    | apply keeps_read
    | apply keeps_destructure
    | apply keeps_json
    | apply keeps_parse
    | apply keeps_stringify
    | apply keeps_fetch
    | apply keeps_getHeaders
    | apply keeps_checkPauseState
    | intros ?; apply keeps_fetch ].

Lemma keeps_callLLM messages : frames R (callLLM w messages).
Proof.
  intros s. unfold callLLM. unfold bind at 1.
  destruct (getHeaders s) as [headers s0 | e s0 | s0] eqn:Hh.
  - assert (s0 = s) as ->.
    { revert Hh. unfold getHeaders.
      destruct (nonempty (apiKey s)); [| destruct (String.eqb _ _)];
        intros H; [injection H as _ <- | discriminate | injection H as _ <-];
        reflexivity. }
    pose proof (keeps_post messages Hh) as Hpost. unfold bind at 1.
    destruct (post w (request_for headers messages s) s)
      as [response s1 | e s1 | s1]; simpl in Hpost; try exact Hpost.
    eapply R_trans; [exact Hpost |].
    generalize s1. change (frames R
      (if negb (ok response)
       then throw (Error ("LLM API error: " ++ string_of_Z (status response)
                          ++ " " ++ statusText response))
       else message <- json response ;;
            ret (match Reply.content message with Some c => c | None => "" end,
                 match Reply.tool_calls message with
                 | Some l => l | None => [] end))).
    keeps.
  - pose proof (keeps_getHeaders s) as H. rewrite Hh in H. exact H.
  - pose proof (keeps_getHeaders s) as H. rewrite Hh in H. exact H.
Qed.

Lemma keeps_googleSearch params : frames R (googleSearch w params).
Proof. unfold googleSearch, snippet_of. keeps. Qed.

Lemma keeps_aiPipeWorkflow params : frames R (aiPipeWorkflow w params).
Proof. unfold aiPipeWorkflow. keeps. Qed.

Lemma keeps_executeJavaScript params : frames R (executeJavaScript w params).
Proof. unfold executeJavaScript. keeps. Qed.

Lemma keeps_executeTool toolCall : frames R (executeTool w toolCall).
Proof.
  unfold executeTool. keeps.
  - apply keeps_googleSearch.
  - apply keeps_aiPipeWorkflow.
  - apply keeps_executeJavaScript.
Qed.

Lemma keeps_updateToolCallResult toolCallId result :
  frames R (updateToolCallResult w toolCallId result).
Proof. unfold updateToolCallResult. keeps. Qed.

Lemma keeps_catch_block toolCallId error results :
  frames R (catch_block w toolCallId error results).
Proof. unfold catch_block. keeps. apply keeps_updateToolCallResult. Qed.

Lemma keeps_dispatch toolCall results : frames R (dispatch w toolCall results).
Proof.
  intros s. unfold dispatch. cbv zeta.
  pose proof (keeps_executeTool toolCall s) as H1.
  destruct (executeTool w toolCall s) as [result s1 | e s1 | s1]; simpl in H1.
  - pose proof (keeps_updateToolCallResult (ToolCall.id toolCall) result s1) as H2.
    destruct (updateToolCallResult w (ToolCall.id toolCall) result s1)
      as [u s2 | e s2 | s2]; simpl in H2.
    + eapply R_trans; eassumption.
    + eapply R_trans; [exact H1 |].
      eapply R_trans; [exact H2 | apply keeps_catch_block].
    + eapply R_trans; eassumption.
  - eapply R_trans; [exact H1 | apply keeps_catch_block].
  - exact H1.
Qed.

Lemma keeps_forEachToolCall polls toolCalls : forall results,
  frames R (forEachToolCall w polls toolCalls results).
Proof.
  induction toolCalls as [| toolCall rest IH]; intros results; simpl.
  - keeps.
  - keeps; [apply keeps_dispatch | apply IH].
Qed.

Lemma keeps_handleToolCalls polls toolCalls :
  frames R (handleToolCalls w polls toolCalls).
Proof.
  unfold handleToolCalls, addToolCallsUI. keeps. apply keeps_forEachToolCall.
Qed.

Lemma keeps_agentLoop_while polls rounds : forall messages,
  frames R (agentLoop_while w polls rounds messages).
Proof.
  induction rounds as [| rounds' IH]; intros messages.
  - intros s. apply R_refl.
  - rewrite agentLoop_while_S.
    apply frames_bind; [exact R_trans | apply keeps_checkPauseState | intros _].
    apply frames_bind; [exact R_trans | apply keeps_callLLM | intros [output toolCalls]].
    cbv beta iota.
    apply frames_bind; [exact R_trans | apply keeps_checkPauseState | intros _].
    apply frames_bind; [exact R_trans | | intros _].
    { destruct (nonempty (trim output)); keeps. }
    destruct toolCalls as [| toolCall rest]; [keeps |].
    apply frames_bind; [exact R_trans | apply keeps_checkPauseState | intros _].
    apply frames_bind; [exact R_trans | apply keeps_handleToolCalls | intros results].
    apply frames_bind; [exact R_trans | | intros toolMessages; apply IH].
    unfold tool_message. keeps.
Qed.

End Invariants.








(** ** Sending a message *)














(** * More on the tools *)

Section ToolFacts.

Variable w : World.






(** What a workflow call comes to once its response has arrived. *)
Lemma aiPipeWorkflow_response params s workflow_type input_data i response :
  get params "workflow_type" = Some workflow_type ->
  get params "input_data" = Some input_data ->
  get params "instructions" = Some i ->
  aborted s = false ->
  aborted (resumed w s) = false ->
  workflow_completions w (clock s) (apiKey s)
    (workflow_prompt (ToString w workflow_type)) (with_default (JStr "") i)
    input_data = Arrived response ->
  aiPipeWorkflow w params s
  = if negb (ok response)
    then Throw (Error ("AI Pipe workflow failed: "
                       ++ string_of_Z (status response))) (resumed w s)
    else match body response with
         | inl e => Throw e (resumed w s)
         | inr text =>
             Ok (JObj [("workflow_type", workflow_type); ("result", text)])
                (resumed w s)
         end.
Proof.
  intros Ht Hd Hi Ha Ha' Hfetch.
  unfold aiPipeWorkflow, destructure. rewrite Ht, Hd, Hi.
  unfold bind at 1 2 3, ret at 1 2 3. cbv beta iota zeta.
  unfold bind at 1, fetch. rewrite Ha, Hfetch.
  unfold bind at 1, suspend. rewrite Ha'.
  destruct (ok response); simpl; [| reflexivity].
  unfold json, bind. destruct (body response); reflexivity.
Qed.

(** The workflow tool checks the status of its response: any response
    that is not ok makes it throw [AI Pipe workflow failed: <status>], and
    the body is not read. *)
Theorem workflow_checks_status params s workflow_type input_data i response :
  get params "workflow_type" = Some workflow_type ->
  get params "input_data" = Some input_data ->
  get params "instructions" = Some i ->
  aborted s = false ->
  aborted (resumed w s) = false ->
  workflow_completions w (clock s) (apiKey s)
    (workflow_prompt (ToString w workflow_type)) (with_default (JStr "") i)
    input_data = Arrived response ->
  ok response = false ->
  aiPipeWorkflow w params s
  = Throw (Error ("AI Pipe workflow failed: " ++ string_of_Z (status response)))
          (resumed w s).
Proof.
  intros Ht Hd Hi Ha Ha' Hfetch Hok.
  rewrite (@aiPipeWorkflow_response params s workflow_type input_data i response)
    by assumption.
  rewrite Hok. reflexivity.
Qed.

(** The workflow tool does not check [workflow_type] against the four
    workflows of its catalogue entry: for any other name (the inherited
    property names of an object apart, for which the prompt table answers
    with something else) the request is made all the same, with
    [undefined] for a system prompt, and an ok response is returned as the
    result of that workflow. *)
Theorem workflow_type_is_not_checked params s workflow_type input_data i
    response text :
  let name := ToString w workflow_type in
  get params "workflow_type" = Some workflow_type ->
  get params "input_data" = Some input_data ->
  get params "instructions" = Some i ->
  ~ In name ["analysis"; "summarization"; "generation"; "classification"] ->
  ~ In name inherited_keys ->
  aborted s = false ->
  aborted (resumed w s) = false ->
  workflow_completions w (clock s) (apiKey s) undefined
    (with_default (JStr "") i) input_data = Arrived response ->
  ok response = true ->
  body response = inr text ->
  aiPipeWorkflow w params s
  = Ok (JObj [("workflow_type", workflow_type); ("result", text)]) (resumed w s).
Proof.
  intros name Ht Hd Hi Hname _ Ha Ha' Hfetch Hok Hbody.
  assert (Hprompt : workflow_prompt name = undefined).
  { unfold workflow_prompt.
    destruct (String.eqb_spec name "analysis") as [E | _];
      [destruct Hname; rewrite E; simpl; auto |].
    destruct (String.eqb_spec name "summarization") as [E | _];
      [destruct Hname; rewrite E; simpl; auto |].
    destruct (String.eqb_spec name "generation") as [E | _];
      [destruct Hname; rewrite E; simpl; auto |].
    destruct (String.eqb_spec name "classification") as [E | _];
      [destruct Hname; rewrite E; simpl; auto |].
    reflexivity. }
  rewrite (@aiPipeWorkflow_response params s workflow_type input_data i response);
    try assumption.
  - rewrite Hok, Hbody. reflexivity.
  - fold name. rewrite Hprompt. exact Hfetch.
Qed.


(** Code that throws [null] or [undefined] makes the evaluation tool itself
    throw: its [catch] block reads [error.message], which raises a
    TypeError, and no failure envelope is returned. *)
Theorem thrown_null_escapes_the_tool params s code r v :
  get params "code" = Some code ->
  get params "return_value" = Some r ->
  completion (run_Function w code) = Thrown v ->
  v = null \/ v = undefined ->
  executeJavaScript w params s = Throw (cannot_read v "message") s.
Proof.
  intros Hc Hr Hrun Hv.
  unfold executeJavaScript, destructure. rewrite Hc, Hr.
  unfold bind at 1 2, ret at 1 2. cbv beta iota zeta. rewrite Hrun.
  destruct Hv; subst v; reflexivity.
Qed.

End ToolFacts.



Lemma workflow_checks_status_witness :
  aiPipeWorkflow workflow_down
    (JObj [("workflow_type", JStr "analysis"); ("input_data", JStr "1, 2, 3")])
    running
  = Throw (Error "AI Pipe workflow failed: 429") (resumed workflow_down running).
Proof.
  exact (@workflow_checks_status workflow_down
           (JObj [("workflow_type", JStr "analysis");
                  ("input_data", JStr "1, 2, 3")])
           running (JStr "analysis") (JStr "1, 2, 3") undefined _
           eq_refl eq_refl eq_refl eq_refl eq_refl eq_refl eq_refl).
Defined.

Lemma workflow_type_is_not_checked_witness :
  aiPipeWorkflow summarizer
    (JObj [("workflow_type", JStr "translation"); ("input_data", JStr "Bonjour")])
    running
  = Ok (JObj [("workflow_type", JStr "translation");
              ("result", JStr "A summary.")])
       (resumed summarizer running).
Proof.
  refine (@workflow_type_is_not_checked summarizer
            (JObj [("workflow_type", JStr "translation");
                   ("input_data", JStr "Bonjour")])
            running (JStr "translation") (JStr "Bonjour") undefined _
            (JStr "A summary.")
            eq_refl eq_refl eq_refl _ _ eq_refl eq_refl eq_refl eq_refl eq_refl).
  - simpl. intros [H | [H | [H | [H | []]]]]; discriminate H.
  - simpl. intuition discriminate.
Defined.


Lemma thrown_null_escapes_the_tool_witness :
  executeJavaScript throws_null (JObj [("code", JStr "throw null")]) running
  = Throw (TypeError "Cannot read properties of null (reading 'message')") running.
Proof.
  exact (@thrown_null_escapes_the_tool throws_null
           (JObj [("code", JStr "throw null")]) running (JStr "throw null")
           undefined null eq_refl eq_refl eq_refl (or_introl eq_refl)).
Defined.

(** * Stored configuration *)

Lemma or_else_text a d : nonempty a = true -> or_else (JStr a) (JStr d) = JStr a.
Proof. destruct a; [discriminate | reflexivity]. Qed.

Lemma or_else_key a : or_else (JStr a) (JStr "") = JStr a.
Proof. destruct a; reflexivity. Qed.

(** What [loadConfig] assigns when the stored text parses to a value that
    is neither null nor undefined. *)
Lemma loadConfig_parsed w text config c :
  nonempty text = true ->
  JSON_parse w text = inr config ->
  config <> null -> config <> undefined ->
  loadConfig w (Some text) c
  = let field k := match get config k with Some v => v | None => undefined end in
    Config.mk (or_else (field "provider") (JStr "aipipe"))
              (or_else (field "apiKey") (JStr ""))
              (or_else (field "model") (JStr "gpt-4o-mini")).
Proof.
  intros Htext Hparse Hnull Hundef. unfold loadConfig. cbv zeta.
  rewrite Htext, Hparse. destruct config; try reflexivity; congruence.
Qed.

(** Saving and loading again restores the settings: where the host's
    [JSON.parse] gives back the object whose text [JSON.stringify] made,
    [loadConfig] assigns the provider, key and model that [saveConfig]
    stored, whatever the fields held before; the key is restored even when
    it is empty.  Provider and model must not be empty for that: an empty
    one comes back as its default. *)
Theorem saved_config_is_restored w s text c :
  let saved := JObj [("provider", JStr (currentProvider s));
                     ("apiKey", JStr (apiKey s));
                     ("model", JStr (model s))] in
  (forall t, JSON_stringify w saved = inr t ->
             nonempty t = true /\ JSON_parse w t = inr saved) ->
  saveConfig w (config_of s) = inr text ->
  nonempty (currentProvider s) = true ->
  nonempty (model s) = true ->
  loadConfig w (Some text) c = config_of s.
Proof.
  intros saved Hhost Hsave Hprovider Hmodel.
  destruct (Hhost text Hsave) as (Htext & Hparse).
  rewrite (@loadConfig_parsed w text saved c Htext Hparse) by discriminate.
  cbv zeta. simpl.
  rewrite (@or_else_text (currentProvider s) "aipipe" Hprovider),
    (@or_else_text (model s) "gpt-4o-mini" Hmodel), or_else_key.
  reflexivity.
Qed.

Lemma saved_config_is_restored_witness :
  loadConfig settings_host (Some (json_text my_settings_object))
             (config_of idle)
  = my_settings.
Proof.
  refine (@saved_config_is_restored settings_host
            (mkState false false None "openai" "sk-test" "gpt-4o" [] 0 [])
            (json_text my_settings_object) (config_of idle)
            _ eq_refl eq_refl eq_refl).
  intros t H. injection H as <-. split; reflexivity.
Defined.

(** With nothing stored, or an empty item, [loadConfig] parses [{}] and
    all three fields become the defaults: [aipipe], the empty key and
    [gpt-4o-mini], whatever they held before. *)
Theorem loadConfig_defaults w stored c :
  JSON_parse w "{}" = inr (JObj []) ->
  stored = None \/ stored = Some "" ->
  loadConfig w stored c = Config.mk (JStr "aipipe") (JStr "") (JStr "gpt-4o-mini").
Proof.
  intros Hempty [-> | ->]; unfold loadConfig; cbv zeta; simpl nonempty; cbv iota;
    rewrite Hempty; reflexivity.
Qed.

Lemma loadConfig_defaults_witness :
  loadConfig settings_host None my_settings
  = Config.mk (JStr "aipipe") (JStr "") (JStr "gpt-4o-mini").
Proof.
  exact (@loadConfig_defaults settings_host None my_settings eq_refl
           (or_introl eq_refl)).
Defined.

(** A stored object is read field by field, and no field is checked to be
    a text: each of provider, key and model becomes the stored value when
    that is truthy, and its default when the stored value is missing or
    falsy, so that a stored empty provider or model is replaced and a
    stored number is assigned as it is. *)
Theorem stored_fields_or_defaults w text fields c :
  nonempty text = true ->
  JSON_parse w text = inr (JObj fields) ->
  let field k d := match assoc k fields with
                   | Some v => if truthy v then v else d
                   | None => d
                   end in
  loadConfig w (Some text) c
  = Config.mk (field "provider" (JStr "aipipe")) (field "apiKey" (JStr ""))
              (field "model" (JStr "gpt-4o-mini")).
Proof.
  intros Htext Hparse field.
  rewrite (@loadConfig_parsed w text _ c Htext Hparse) by discriminate.
  cbv zeta. unfold field, or_else. simpl.
  destruct (assoc "provider" fields), (assoc "apiKey" fields),
    (assoc "model" fields); reflexivity.
Qed.

Lemma stored_fields_or_defaults_witness :
  loadConfig settings_host (Some partial_settings_text) my_settings
  = Config.mk (JStr "openai") (JStr "") (JNum 4).
Proof.
  exact (@stored_fields_or_defaults settings_host partial_settings_text
           [("provider", JStr "openai"); ("apiKey", JStr ""); ("model", JNum 4)]
           my_settings eq_refl eq_refl).
Defined.

(** A stored item that is not JSON, or that is the JSON text [null],
    leaves provider, key and model as they were: the exception is caught
    inside [loadConfig] before anything is assigned. *)
Theorem unreadable_config_changes_nothing w text c :
  nonempty text = true ->
  (exists e, JSON_parse w text = inl e) \/ JSON_parse w text = inr null ->
  loadConfig w (Some text) c = c.
Proof.
  intros Htext [(e & H) | H]; unfold loadConfig; cbv zeta;
    rewrite Htext, H; reflexivity.
Qed.

Lemma unreadable_config_changes_nothing_witness :
  loadConfig settings_host (Some "{provider") my_settings = my_settings.
Proof.
  apply (@unreadable_config_changes_nothing settings_host "{provider" my_settings).
  - reflexivity.
  - left. eexists. reflexivity.
Defined.

(** * A model that keeps asking for tools *)

Lemma same_control_refl s : same_control s s.
Proof. unfold same_control. repeat split. Qed.

Lemma same_control_trans s1 s2 s3 :
  same_control s1 s2 -> same_control s2 s3 -> same_control s1 s3.
Proof.
  intros (H1 & H2 & H3 & H4 & H5 & H6) (I1 & I2 & I3 & I4 & I5 & I6).
  unfold same_control. repeat split; congruence.
Qed.

Lemma same_control_aborted s s' : same_control s s' -> aborted s' = aborted s.
Proof. intros (_ & _ & H & _). unfold aborted. rewrite H. reflexivity. Qed.

Lemma mapM_returns A B (f : A -> M B) (l : list A) s :
  Forall (fun a => exists b, f a s = Ok b s) l -> exists bs, mapM f l s = Ok bs s.
Proof.
  induction 1 as [| a rest (b & Hb) _ (bs & IH)]; simpl; [eexists; reflexivity |].
  erewrite bind_of_Ok by exact Hb. erewrite bind_of_Ok by exact IH.
  eexists. reflexivity.
Qed.

Section QuietFacts.

Variable w : World.

Hypothesis Hquiet : quiet w.
Hypothesis Herror : forall message,
  exists text, JSON_stringify w (JObj [("error", JStr message)]) = inr text.
Hypothesis Htools : forall toolCall s result s',
  executeTool w toolCall s = Ok result s' ->
  exists text, JSON_stringify w result = inr text.

Lemma quiet_resumed s : resumed w s = set_clock (S (clock s)) s.
Proof. unfold resumed. rewrite Hquiet. reflexivity. Qed.

Lemma same_control_resumed s : same_control s (resumed w s).
Proof. rewrite quiet_resumed. unfold same_control. simpl. repeat split. Qed.

Lemma same_control_render r s : same_control s (render r s).
Proof. unfold same_control. simpl. repeat split. Qed.

Lemma same_control_sent request s :
  same_control s (set_sent (sent s ++ [request]) s).
Proof. unfold same_control. simpl. repeat split. Qed.

Lemma dispatch_goes_on toolCall results s :
  Forall (has_text w) results ->
  exists rs s',
    dispatch w toolCall results s = Ok rs s'
    /\ same_control s s' /\ same_sent s s' /\ Forall (has_text w) rs.
Proof.
  intros Hresults.
  pose proof (halts_executeTool w toolCall s) as Hh.
  pose proof (@keeps_dispatch w same_control same_control_refl same_control_trans
                same_control_resumed same_control_render toolCall results s) as Hc.
  pose proof (dispatch_same_sent w toolCall results s) as Hs.
  revert Hc Hs. unfold dispatch. cbv zeta.
  destruct (executeTool w toolCall s) as [result s1 | e s1 | s1] eqn:E;
    [| | destruct Hh].
  - destruct (Htools _ _ E) as (text & Ht).
    assert (U : updateToolCallResult w (ToolCall.id toolCall) result s1
                = Ok tt (render (updatedToolCallResult (ToolCall.id toolCall)
                                   result) s1)).
    { unfold updateToolCallResult, stringify, bind. rewrite Ht. reflexivity. }
    rewrite U. simpl. intros Hc Hs. do 2 eexists.
    split; [reflexivity |]. split; [exact Hc |]. split; [exact Hs |].
    apply Forall_app. split; [exact Hresults |].
    constructor; [exists text; exact Ht | constructor].
  - destruct (Herror (exn_message e)) as (text & Ht).
    erewrite catch_block_returns by exact Ht. simpl. intros Hc Hs.
    do 2 eexists.
    split; [reflexivity |]. split; [exact Hc |]. split; [exact Hs |].
    apply Forall_app. split; [exact Hresults |].
    constructor; [exists text; exact Ht | constructor].
Qed.

Lemma forEachToolCall_goes_on polls toolCalls : forall results s,
  isPaused s = false -> aborted s = false -> Forall (has_text w) results ->
  exists rs s',
    forEachToolCall w polls toolCalls results s = Ok rs s'
    /\ same_control s s' /\ same_sent s s' /\ Forall (has_text w) rs.
Proof.
  induction toolCalls as [| toolCall rest IH]; intros results s Hp Ha Hresults;
    simpl.
  - exists results, s. repeat split. exact Hresults.
  - erewrite bind_of_Ok by (apply checkPauseState_running; assumption).
    destruct (dispatch_goes_on toolCall s Hresults)
      as (rs & s1 & Hd & Hc & Hs & Hrs).
    erewrite bind_of_Ok by exact Hd.
    destruct (IH rs s1) as (rs' & s2 & Hf & Hc' & Hs' & Hrs').
    + destruct Hc as (_ & -> & _). exact Hp.
    + rewrite (same_control_aborted Hc). exact Ha.
    + exact Hrs.
    + exists rs', s2. split; [exact Hf |].
      split; [eapply same_control_trans; eassumption |].
      split; [eapply same_sent_trans; eassumption | exact Hrs'].
Qed.

Lemma handleToolCalls_goes_on polls toolCalls s :
  isPaused s = false -> aborted s = false -> Forall (parsable w) toolCalls ->
  exists rs s',
    handleToolCalls w polls toolCalls s = Ok rs s'
    /\ same_control s s' /\ same_sent s s' /\ Forall (has_text w) rs.
Proof.
  intros Hp Ha Hcalls. unfold handleToolCalls, addToolCallsUI.
  destruct (@mapM_returns _ _
              (fun toolCall =>
                 parse w (ToolCall.arguments (ToolCall.function toolCall)))
              toolCalls s) as (vs & Hvs).
  { eapply Forall_impl; [| exact Hcalls].
    intros toolCall (v & Hv). unfold parse. rewrite Hv. eexists. reflexivity. }
  erewrite bind_of_Ok by (erewrite bind_of_Ok by exact Hvs; reflexivity).
  destruct (@forEachToolCall_goes_on polls toolCalls []
              (render (addedToolCalls toolCalls) s) Hp Ha (Forall_nil _))
    as (rs & s' & Hf & Hc & Hs & Hrs).
  exists rs, s'. split; [exact Hf |]. split; [exact Hc |].
  split; [exact Hs | exact Hrs].
Qed.

Lemma tool_messages_return results s :
  Forall (has_text w) results ->
  exists toolMessages, mapM (tool_message w) results s = Ok toolMessages s.
Proof.
  intros Hresults. apply mapM_returns.
  eapply Forall_impl; [| exact Hresults].
  intros r (text & Ht). unfold tool_message, stringify, bind. rewrite Ht.
  eexists. reflexivity.
Qed.

(** The loop has no bound on its iterations: as long as every reply of the
    model asks for tools, it goes round again.  With nobody clicking,
    headers that can be built, tool calls whose arguments parse and
    results that have a JSON text, the loop is still running after any
    number of rounds, and has sent one completion request in each. *)
Theorem loop_has_no_iteration_cap polls rounds : forall messages s,
  isPaused s = false -> aborted s = false ->
  nonempty (apiKey s) = true \/ String.eqb (currentProvider s) "openai" = false ->
  (forall t request,
     exists response reply toolCall rest,
       chat_completions w t request = Arrived response
       /\ ok response = true
       /\ body response = inr reply
       /\ Reply.tool_calls reply = Some (toolCall :: rest)
       /\ Forall (parsable w) (toolCall :: rest)) ->
  exists s',
    agentLoop_while w polls rounds messages s = Pending s'
    /\ length (sent s') = length (sent s) + rounds.
Proof.
  induction rounds as [| rounds IH]; intros messages s Hp Ha Hkey Hmodel.
  { exists s. split; [reflexivity | lia]. }
  rewrite agentLoop_while_S.
  erewrite bind_of_Ok by (apply checkPauseState_running; assumption).
  assert (Hheaders : exists headers, getHeaders s = Ok headers s).
  { unfold getHeaders. destruct Hkey as [-> | Hprovider]; [eauto |].
    destruct (nonempty (apiKey s)); [eauto |]. rewrite Hprovider. eauto. }
  destruct Hheaders as (headers & Hheaders).
  set (request := request_for headers messages s).
  set (s1 := resumed w (set_sent (sent s ++ [request]) s)).
  assert (Hc1 : same_control s s1).
  { eapply same_control_trans;
      [apply (same_control_sent request) | apply same_control_resumed]. }
  assert (Hs1 : sent s1 = (sent s ++ [request])%list).
  { unfold s1. rewrite quiet_resumed. reflexivity. }
  destruct (Hmodel (clock s) request)
    as (response & reply & toolCall & rest & Hchat & Hok & Hbody & Hcalls
        & Hparsable).
  assert (Hcall : callLLM w messages s
                  = Ok (match Reply.content reply with
                        | Some c => c | None => "" end, toolCall :: rest) s1).
  { rewrite (@callLLM_answered w messages s headers Ha Hheaders). cbv zeta.
    fold request. fold s1.
    rewrite (same_control_aborted Hc1), Ha, Hchat, Hok. simpl.
    rewrite Hbody, Hcalls. reflexivity. }
  erewrite bind_of_Ok by exact Hcall. cbv beta iota.
  set (output := match Reply.content reply with Some c => c | None => "" end).
  assert (Hp1 : isPaused s1 = false).
  { destruct Hc1 as (_ & -> & _). exact Hp. }
  assert (Ha1 : aborted s1 = false).
  { rewrite (same_control_aborted Hc1). exact Ha. }
  erewrite bind_of_Ok by (apply checkPauseState_running; assumption).
  assert (Hshow : exists s2,
             (if nonempty (trim output)
              then modify (addMessage "agent" output) else ret tt) s1 = Ok tt s2
             /\ same_control s1 s2 /\ sent s2 = sent s1).
  { destruct (nonempty (trim output)); eexists;
      (split; [reflexivity
              | split; [unfold same_control; simpl; repeat split | reflexivity]]). }
  destruct Hshow as (s2 & Hshow & Hc2 & Hs2).
  erewrite bind_of_Ok by exact Hshow.
  assert (Hp2 : isPaused s2 = false).
  { destruct Hc2 as (_ & -> & _). exact Hp1. }
  assert (Ha2 : aborted s2 = false).
  { rewrite (same_control_aborted Hc2). exact Ha1. }
  erewrite bind_of_Ok by (apply checkPauseState_running; assumption).
  destruct (@handleToolCalls_goes_on polls (toolCall :: rest) s2 Hp2 Ha2
              Hparsable)
    as (results & s3 & Hresults & Hc3 & Hs3 & Htexts).
  erewrite bind_of_Ok by exact Hresults.
  destruct (@tool_messages_return results s3 Htexts)
    as (toolMessages & Hmessages).
  erewrite bind_of_Ok by exact Hmessages.
  destruct (IH (messages ++ assistant_message output (toolCall :: rest)
                         :: toolMessages)%list s3)
    as (s' & Hloop & Hlength).
  - destruct Hc3 as (_ & -> & _). exact Hp2.
  - rewrite (same_control_aborted Hc3). exact Ha2.
  - destruct Hc3 as (_ & _ & _ & Hprov & Hk & _),
             Hc2 as (_ & _ & _ & Hprov2 & Hk2 & _),
             Hc1 as (_ & _ & _ & Hprov1 & Hk1 & _).
    rewrite Hprov, Hprov2, Hprov1, Hk, Hk2, Hk1. exact Hkey.
  - exact Hmodel.
  - exists s'. split; [exact Hloop |].
    rewrite Hlength. unfold same_sent in Hs3. rewrite Hs3, Hs2, Hs1.
    rewrite length_app. simpl. lia.
Qed.

End QuietFacts.

Lemma loop_has_no_iteration_cap_witness :
  exists s',
    agentLoop_while insistent_model 3 50
      [Message.mk system SYSTEM_PROMPT None None;
       Message.mk user "What is the weather?" None None] running = Pending s'
    /\ length (sent s') = length (sent running) + 50.
Proof.
  apply (@loop_has_no_iteration_cap insistent_model).
  - intros t. reflexivity.
  - intros message. eexists. reflexivity.
  - intros toolCall s result s' _. eexists. reflexivity.
  - reflexivity.
  - reflexivity.
  - right. reflexivity.
  - intros t request. do 4 eexists.
    repeat split. repeat constructor. eexists. reflexivity.
Defined.

(** * The requests of a turn *)

Lemma carries_settings s s' r :
  currentProvider s' = currentProvider s -> apiKey s' = apiKey s ->
  model s' = model s -> carries s' r -> carries s r.
Proof. unfold carries. intros -> -> ->. exact (fun H => H). Qed.

Lemma sends_with_settings_refl s : sends_with_settings s s.
Proof.
  unfold sends_with_settings. repeat split. exists [].
  rewrite app_nil_r. split; constructor.
Qed.

Lemma sends_with_settings_trans s1 s2 s3 :
  sends_with_settings s1 s2 -> sends_with_settings s2 s3 ->
  sends_with_settings s1 s3.
Proof.
  intros (H1 & H2 & H3 & new & Hs & Hnew) (I1 & I2 & I3 & new' & Hs' & Hnew').
  unfold sends_with_settings. repeat split; try congruence.
  exists (new ++ new')%list. split.
  - rewrite Hs', Hs, app_assoc. reflexivity.
  - apply Forall_app. split; [exact Hnew |].
    eapply Forall_impl; [| exact Hnew'].
    intros r. apply carries_settings; assumption.
Qed.

Lemma sends_with_settings_same s s' :
  currentProvider s' = currentProvider s -> apiKey s' = apiKey s ->
  model s' = model s -> sent s' = sent s -> sends_with_settings s s'.
Proof.
  intros H1 H2 H3 H4. unfold sends_with_settings. repeat split; try assumption.
  exists []. rewrite app_nil_r. split; [exact H4 | constructor].
Qed.

Lemma sends_with_settings_resumed w s : sends_with_settings s (resumed w s).
Proof.
  unfold resumed.
  destruct (handle_all_keeps (ui w (clock s)) s)
    as (_ & H2 & H3 & H4 & _ & H6 & _).
  apply sends_with_settings_same; assumption.
Qed.

Lemma sends_with_settings_request headers messages s :
  getHeaders s = Ok headers s ->
  sends_with_settings s (set_sent (sent s ++ [request_for headers messages s]) s).
Proof.
  intros Hh. unfold sends_with_settings. simpl. repeat split.
  eexists. split; [reflexivity |]. constructor; [| constructor].
  unfold carries, request_for, getEndpoint. simpl.
  revert Hh. unfold getHeaders.
  destruct (nonempty (apiKey s)).
  - intros H. injection H as <-. repeat split. left. reflexivity.
  - destruct (String.eqb_spec (currentProvider s) "openai") as [E | E];
      [discriminate |].
    intros H. injection H as <-. repeat split. right. exact E.
Qed.

Lemma agentLoop_while_sends_with_settings w polls rounds messages :
  frames sends_with_settings (agentLoop_while w polls rounds messages).
Proof.
  apply keeps_agentLoop_while.
  - exact sends_with_settings_refl.
  - exact sends_with_settings_trans.
  - apply sends_with_settings_resumed.
  - intros r s. apply sends_with_settings_same; reflexivity.
  - apply sends_with_settings_request.
Qed.

(** Every completion request of a turn carries the settings in force when
    the message was sent, however the turn is paused, resumed or cancelled
    and however it ends (the settings panel being left alone meanwhile):
    it goes to the AI Pipe endpoint when the provider is [aipipe] and
    to the OpenAI endpoint for any other provider, names the configured
    model, offers the three tools with [tool_choice] auto and 2000 tokens
    at most, and has the header [Authorization: Bearer <key>] exactly when
    the key is not empty; no request leaves for the provider [openai]
    without a key. *)
Theorem requests_carry_the_settings w polls rounds input s :
  exists new,
    sent (final (sendMessage w polls rounds input s)) = (sent s ++ new)%list
    /\ Forall (carries s) new.
Proof.
  unfold sendMessage. cbv zeta.
  destruct (negb (nonempty (trim input)) || isProcessing s).
  { exists []. simpl. rewrite app_nil_r. split; constructor. }
  set (s0 := set_abortController _ _).
  pose proof (agentLoop_while_sends_with_settings w polls rounds
                [Message.mk system SYSTEM_PROMPT None None;
                 Message.mk user (trim input) None None] s0)
    as (_ & _ & _ & new & Hs & Hnew).
  exists new. split.
  - unfold agentLoop.
    destruct (agentLoop_while w polls rounds _ s0) as [msgs s1 | e s1 | s1];
      simpl in *; try exact Hs.
    destruct (String.eqb (exn_name e) "AbortError"); exact Hs.
  - exact Hnew.
Qed.

(** * Holding the loop *)

(** A pause holds the loop at its next checkpoint: while the agent is
    paused in a turn and nobody clicks, [checkPauseState] does not return
    however long it is watched, and leaves the page, the requests and the
    flags as they are. *)
Theorem pause_holds_the_loop w polls s :
  isPaused s = true -> isProcessing s = true ->
  (forall t, clock s <= t -> ui w t = []) ->
  checkPauseState w polls s = Pending (set_clock (polls + clock s) s).
Proof.
  intros Hp Hr Hquiet. unfold checkPauseState, bind. rewrite Hp.
  rewrite (@waitWhilePaused_stuck w polls s Hp Hr Hquiet). reflexivity.
Qed.

Lemma pause_holds_the_loop_witness :
  checkPauseState calculator 7 paused = Pending (set_clock 7 paused).
Proof.
  apply (@pause_holds_the_loop calculator 7 paused); reflexivity.
Defined.
